(** * export_webpdf: notebooks to PDF through a headless browser

    A shallow embedding of [scripts/export_webpdf.py].  The script drives
    three collaborators that it does not define: the notebook-to-HTML
    exporter of nbconvert, the Playwright automation engine with its
    Chromium browser, and the operating system (temporary files, paths,
    sub-processes).  Every call into a collaborator is an [op]; a run of the
    script is a function of an [oracle], which decides what each call
    answers or which exception it raises, and of a [world], which holds the
    temporary directory, whether a Chromium binary is installed, and the
    log of the calls made so far. *)

From Stdlib Require Import ZArith QArith Qround Ascii String List Bool Lia.
From stdpp Require Import gmap strings list fin_maps.

Import ListNotations.
Local Open Scope string_scope.
Local Open Scope list_scope.

(** ** Python values *)

(** A Python [str] is a sequence of code points; unlike a Rocq [string] it
    may hold lone surrogates, which is what makes [str.encode] partial. *)
Definition pystr : Type := list Z.

(** A Python [bytes] object: octets as integers in [0, 256). *)
Definition bytes : Type := list Z.

(** The values that travel in the keyword dictionary given to [page.pdf]. *)
Inductive pyval : Type :=
| VNone
| VBool (b : bool)
| VInt (n : Z)
| VStr (s : string).

Definition of_optional_str (o : option string) : pyval :=
  match o with
  | Some s => VStr s
  | None => VNone
  end.

(** [chr(c).encode("utf-8")]: one to four octets, and no encoding at all
    for the surrogate range and beyond U+10FFFF. *)
Definition encode_code_point (c : Z) : option bytes :=
  if (c <? 0)%Z then None
  else if (c <? 0x80)%Z then Some [c]
  else if (c <? 0x800)%Z then
    Some [Z.lor 0xC0 (Z.shiftr c 6); Z.lor 0x80 (Z.land c 0x3F)]
  else if (0xD800 <=? c)%Z && (c <=? 0xDFFF)%Z then None
  else if (c <? 0x10000)%Z then
    Some [Z.lor 0xE0 (Z.shiftr c 12);
          Z.lor 0x80 (Z.land (Z.shiftr c 6) 0x3F);
          Z.lor 0x80 (Z.land c 0x3F)]
  else if (c <? 0x110000)%Z then
    Some [Z.lor 0xF0 (Z.shiftr c 18);
          Z.lor 0x80 (Z.land (Z.shiftr c 12) 0x3F);
          Z.lor 0x80 (Z.land (Z.shiftr c 6) 0x3F);
          Z.lor 0x80 (Z.land c 0x3F)]
  else None.

(** [s.encode("utf-8")]; [None] stands for [UnicodeEncodeError]. *)
Fixpoint encode_utf8 (s : pystr) : option bytes :=
  match s with
  | [] => Some []
  | c :: rest =>
      match encode_code_point c, encode_utf8 rest with
      | Some b, Some bs => Some (b ++ bs)
      | _, _ => None
      end
  end.

(** ** Exceptions *)

Inductive exn : Type :=
| ModuleNotFoundError (name : string)
| ImportError (name : string)
| RuntimeError (msg : string) (cause : exn)   (* raise RuntimeError(msg) from cause *)
| FileNotFoundError (msg : string)
| FileExistsError (msg : string)
| OSError (msg : string)
| UnicodeEncodeError
| ValueError (msg : string)
| CalledProcessError (returncode : Z)
| PlaywrightError (msg : string)
| PlaywrightTimeoutError (msg : string)
| SystemExit (code : Z)
| KeyboardInterrupt.

(** [isinstance(e, Exception)]: what a clause [except Exception] catches.
    [SystemExit] and [KeyboardInterrupt] derive from [BaseException] only. *)
Definition is_Exception (e : exn) : bool :=
  match e with
  | SystemExit _ | KeyboardInterrupt => false
  | _ => true
  end.

Definition is_ModuleNotFoundError (e : exn) : bool :=
  match e with
  | ModuleNotFoundError _ => true
  | _ => false
  end.

(** The result of evaluating a Python expression or statement. *)
Inductive outcome (A : Type) : Type :=
| Normal (a : A)
| Raised (e : exn).
Arguments Normal {A} a.
Arguments Raised {A} e.

(** ** Paths *)

(** A resolved [pathlib.Path]: the components below the root. *)
Definition Path : Type := list string.

Fixpoint join (sep : string) (l : list string) : string :=
  match l with
  | [] => ""
  | [x] => x
  | x :: rest => x ++ sep ++ join sep rest
  end.

(** [str(p)] for an absolute path. *)
Definition path_str (p : Path) : string := "/" ++ join "/" p.

(** [str(p)] for a relative path. *)
Definition relpath_str (p : list string) : string :=
  match p with
  | [] => "."
  | _ => join "/" p
  end.

(** [p.parent]; the root is its own parent. *)
Definition parent (p : Path) : Path := removelast p.

(** [p.name] *)
Definition name (p : Path) : string := List.last p "".

(** [p / s] for a single component [s]. *)
Definition joinpath (p : Path) (s : string) : Path := p ++ [s].

(** [s.rfind(".")], with [None] for Python's -1. *)
Fixpoint rfind_dot (s : string) : option nat :=
  match s with
  | EmptyString => None
  | String c rest =>
      match rfind_dot rest with
      | Some i => Some (S i)
      | None => if Ascii.eqb c "."%char then Some 0 else None
      end
  end.

(** [PurePath.stem]: the final component without its last suffix; a
    leading or a trailing dot starts no suffix. *)
Definition stem_of_name (nm : string) : string :=
  match rfind_dot nm with
  | Some i =>
      if Nat.ltb 0 i && Nat.ltb i (String.length nm - 1)%nat
      then String.substring 0 i nm
      else nm
  | None => nm
  end.

Definition stem (p : Path) : string := stem_of_name (name p).

Fixpoint is_prefix_of (base p : Path) : bool :=
  match base, p with
  | [], _ => true
  | b :: base', c :: p' => String.eqb b c && is_prefix_of base' p'
  | _ :: _, [] => false
  end.

(** [p.relative_to(base)] raises [ValueError] unless [base] is a prefix. *)
Definition relative_to (p base : Path) : outcome (list string) :=
  if is_prefix_of base p
  then Normal (skipn (List.length base) p)
  else Raised (ValueError
         ("'" ++ path_str p ++ "' is not in the subpath of '" ++ path_str base ++ "'")).

(** ** The collaborators *)

(** What [document.body.getBoundingClientRect()] reports, in CSS pixels.
    The sides are finite doubles, hence rationals, on which [Math.ceil] is
    the exact ceiling. *)
Record DomRect : Type := { rect_width : Q; rect_height : Q }.

(** The object the measurement script returns. *)
Record Dimensions : Type := { width : Z; height : Z }.

(** The script given to [page.evaluate]:
    [{width: Math.ceil(rect.width) + 1, height: Math.ceil(rect.height) + 1}]. *)
Definition measure_script (rect : DomRect) : Dimensions :=
  {| width := Qceiling (rect_width rect) + 1;
     height := Qceiling (rect_height rect) + 1 |}.

(** A parsed notebook, as [nbformat.read] returns it. *)
Inductive notebook : Type := NotebookNode (json : string).

(** A call into a collaborator. *)
Inductive op : Type :=
(* tempfile and os *)
| NamedTemporaryFile (suffix : string)
| TempWrite (file : string) (data : bytes)
| Unlink (file : string)
(* playwright *)
| ImportPlaywright
| CheckCall (cmd : list string)
| PlaywrightStart
| ChromiumLaunch (handle_sigint handle_sigterm handle_sighup : bool)
                 (args : list string)
| NewPage
| EmulateMedia (media : string)
| WaitForTimeout (ms : Z)
| Goto (url wait_until : string)
| Evaluate
| PagePdf (params : gmap string pyval)
| BrowserClose
| PlaywrightStop
(* pathlib, nbformat, nbconvert, print *)
| PathExists (p : Path)
| Mkdir (p : Path) (parents exist_ok : bool)
| ReadNotebook (p : Path)
| ExportHtml (nb : notebook)
| WriteBytes (p : Path) (data : bytes)
| Print (msg : string).

(** What a call answers when it returns normally. *)
Definition ans (o : op) : Type :=
  match o with
  | NamedTemporaryFile _ => string
  | Evaluate => DomRect
  | PagePdf _ => bytes
  | PathExists _ => bool
  | ReadNotebook _ => notebook
  | ExportHtml _ => pystr
  | _ => unit
  end.

(** A call that was made, with the exception it raised if it raised one. *)
Definition event : Type := op * option exn.

Definition raised {A} (r : outcome A) : option exn :=
  match r with
  | Normal _ => None
  | Raised e => Some e
  end.

(** The environment: from the calls made so far and the next call, its
    answer or the exception it raises. *)
Definition oracle : Type := list event -> forall o : op, outcome (ans o).

Record world : Type := {
  files : gmap string bytes;   (* the temporary directory *)
  chromium : bool;             (* a compatible Chromium binary is installed *)
  log : list event             (* the calls made so far, oldest first *)
}.

Definition set_files (f : gmap string bytes) (w : world) : world :=
  {| files := f; chromium := chromium w; log := log w |}.

Definition set_chromium (b : bool) (w : world) : world :=
  {| files := files w; chromium := b; log := log w |}.

Definition record (ev : event) (w : world) : world :=
  {| files := files w; chromium := chromium w; log := log w ++ [ev] |}.

(** [python -m playwright install chromium], whatever the interpreter. *)
Definition is_install_chromium (cmd : list string) : bool :=
  bool_decide (skipn 1 cmd = ["-m"; "playwright"; "install"; "chromium"]).

(** The effect of a call on the world.  The temporary directory behaves as
    a file system does: a new temporary file needs an unused name, writing
    and unlinking need the file to be there.  A successful
    [playwright install chromium] leaves a binary behind, and a launch
    without a binary fails.  Everything else is the oracle's choice. *)
Definition respond (orc : oracle) (w : world) (o : op) : outcome (ans o) * world :=
  match o as o' return outcome (ans o') * world with
  | NamedTemporaryFile sfx =>
      match orc (log w) (NamedTemporaryFile sfx) with
      | Normal f =>
          match files w !! f with
          | None => (Normal f, set_files (<[f := []]> (files w)) w)
          | Some _ => (Raised (FileExistsError f), w)
          end
      | Raised e => (Raised e, w)
      end
  | TempWrite f data =>
      match files w !! f with
      | Some _ => (Normal tt, set_files (<[f := data]> (files w)) w)
      | None => (Raised (FileNotFoundError f), w)
      end
  | Unlink f =>
      match files w !! f with
      | Some _ => (Normal tt, set_files (delete f (files w)) w)
      | None => (Raised (FileNotFoundError f), w)
      end
  | CheckCall cmd =>
      match orc (log w) (CheckCall cmd) with
      | Normal _ =>
          (Normal tt, if is_install_chromium cmd then set_chromium true w else w)
      | Raised e => (Raised e, w)
      end
  | ChromiumLaunch hi ht hh args =>
      if chromium w
      then (orc (log w) (ChromiumLaunch hi ht hh args), w)
      else (Raised (PlaywrightError "Executable doesn't exist"), w)
  | o' => (orc (log w) o', w)
  end.

(** ** The monad of Python statements *)

Definition M (A : Type) : Type := oracle -> world -> outcome A * world.

Definition ret {A} (a : A) : M A := fun _ w => (Normal a, w).

Definition raise {A} (e : exn) : M A := fun _ w => (Raised e, w).

Definition bind {A B} (m : M A) (k : A -> M B) : M B :=
  fun orc w =>
    match m orc w with
    | (Normal a, w') => k a orc w'
    | (Raised e, w') => (Raised e, w')
    end.

Notation "'let*' x := c 'in' k" := (bind c (fun x => k))
  (at level 10, x name, c at level 100, k at level 200).

(** Evaluating a pure expression that may raise. *)
Definition lift {A} (r : outcome A) : M A := fun _ w => (r, w).

(** A call: the world answers, and the call is logged. *)
Definition call (o : op) : M (ans o) :=
  fun orc w => let (a, w') := respond orc w o in (a, record (o, raised a) w').

(** [try: body  except <class> as exc: handler exc]; the handler is [None]
    for an exception that the clause does not match. *)
Definition try_except {A} (body : M A) (handler : exn -> option (M A)) : M A :=
  fun orc w =>
    match body orc w with
    | (Normal a, w') => (Normal a, w')
    | (Raised e, w') =>
        match handler e with
        | Some h => h orc w'
        | None => (Raised e, w')
        end
    end.

(** [try: body  finally: cleanup]; an exception from the clean-up replaces
    the outcome of the body. *)
Definition try_finally {A} (body : M A) (cleanup : M unit) : M A :=
  fun orc w =>
    match body orc w with
    | (r, w') =>
        match cleanup orc w' with
        | (Normal _, w'') => (r, w'')
        | (Raised e, w'') => (Raised e, w'')
        end
    end.

(** [for x in l: body x] *)
Fixpoint for_each {A} (l : list A) (body : A -> M unit) : M unit :=
  match l with
  | [] => ret tt
  | x :: rest => let* _ := body x in for_each rest body
  end.

(** ** The exporter *)

(** The configurable traits that [SizedWebPDFExporter] inherits from
    nbconvert's [WebPDFExporter]. *)
Record WebPDFExporter : Type := {
  allow_chromium_download : bool;
  paginate : bool;
  disable_sandbox : bool
}.

(** [class SizedWebPDFExporter(WebPDFExporter)] *)
Record SizedWebPDFExporter : Type := {
  super : WebPDFExporter;
  _page_format : option string
}.

(** [SizedWebPDFExporter.__init__]: [defaults] is what
    the constructor of the base class leaves in the inherited traits. *)
Definition SizedWebPDFExporter_init (defaults : WebPDFExporter)
    (page_format : option string) : SizedWebPDFExporter :=
  {| super := defaults; _page_format := page_format |}.

Definition set_allow_chromium_download (b : bool) (self : SizedWebPDFExporter)
    : SizedWebPDFExporter :=
  {| super := {| allow_chromium_download := b;
                 paginate := paginate (super self);
                 disable_sandbox := disable_sandbox (super self) |};
     _page_format := _page_format self |}.

Definition set_disable_sandbox (b : bool) (self : SizedWebPDFExporter)
    : SizedWebPDFExporter :=
  {| super := {| allow_chromium_download := allow_chromium_download (super self);
                 paginate := paginate (super self);
                 disable_sandbox := b |};
     _page_format := _page_format self |}.

(** What the process sees of its surroundings without calling anybody. *)
Record Env : Type := {
  sys_executable : string;
  sys_argv : list string;
  cwd : Path;                    (* Path.cwd() *)
  resolve : string -> Path       (* Path(s).resolve() *)
}.

Definition msg_playwright_missing : string :=
  "Playwright is not installed to support Web PDF conversion. " ++
  "Please install `nbconvert[webpdf]` to enable.".

Definition msg_no_chromium : string :=
  "No suitable chromium executable found on the system. " ++
  "Please use '--allow-chromium-download' to allow downloading one, " ++
  "or install it using `playwright install chromium`.".

(** [page.evaluate(script)]: the browser runs the script on the body's
    bounding rectangle. *)
Definition page_evaluate {A} (script : DomRect -> A) : M A :=
  let* rect := call Evaluate in ret (script rect).

(** [{"print_background": True, "format": self._page_format}] *)
Definition initial_pdf_params (self : SizedWebPDFExporter) : gmap string pyval :=
  <["format" := of_optional_str (_page_format self)]>
    (<["print_background" := VBool true]> ∅).

(** [pdf_params.update({"width": min(width, 200 * 72),
                        "height": min(height, 200 * 72)})] *)
Definition update_size (dimensions : Dimensions) (pdf_params : gmap string pyval)
    : gmap string pyval :=
  <["height" := VInt (Z.min (height dimensions) (200 * 72))]>
    (<["width" := VInt (Z.min (width dimensions) (200 * 72))]> pdf_params).

(** The coroutine [main(temp_file)] inside [run_playwright]. *)
Definition run_playwright_main (env : Env) (self : SizedWebPDFExporter)
    (temp_file_name : string) : M bytes :=
  let args := if disable_sandbox (super self) then ["--no-sandbox"] else [] in
  let* _ := try_except (call ImportPlaywright)
              (fun exc =>
                 if is_ModuleNotFoundError exc
                 then Some (raise (RuntimeError msg_playwright_missing exc))
                 else None) in
  let* _ := (if allow_chromium_download (super self)
             then call (CheckCall [sys_executable env; "-m"; "playwright";
                                   "install"; "chromium"])
             else ret tt) in
  let* _ := call PlaywrightStart in
  let* _ := try_except (call (ChromiumLaunch false false false args))
              (fun exc =>
                 if is_Exception exc
                 then Some (let* _ := call PlaywrightStop in
                            raise (RuntimeError msg_no_chromium exc))
                 else None) in
  let* _ := call NewPage in
  let* _ := call (EmulateMedia "print") in
  let* _ := call (WaitForTimeout 100) in
  let* _ := call (Goto ("file://" ++ temp_file_name) "networkidle") in
  let* _ := call (WaitForTimeout 100) in
  let pdf_params := initial_pdf_params self in
  let* pdf_params :=
    (if negb (paginate (super self))
     then let* dimensions := page_evaluate measure_script in
          ret (update_size dimensions pdf_params)
     else ret pdf_params) in
  let* pdf_data := call (PagePdf pdf_params) in
  let* _ := call BrowserClose in
  let* _ := call PlaywrightStop in
  ret pdf_data.

(** [SizedWebPDFExporter.run_playwright].  The coroutine runs to completion
    on a worker thread with an event loop of its own while the caller waits
    for its result, so for the caller it is a plain call. *)
Definition run_playwright (env : Env) (self : SizedWebPDFExporter)
    (html : pystr) : M bytes :=
  let* temp_file := call (NamedTemporaryFile ".html") in
  let* data := lift (match encode_utf8 html with
                     | Some b => Normal b
                     | None => Raised UnicodeEncodeError
                     end) in
  let* _ := call (TempWrite temp_file data) in
  try_finally (run_playwright_main env self temp_file)
              (call (Unlink temp_file)).

(** [WebPDFExporter.from_notebook_node], inherited: the HTML exporter
    renders the notebook, and the result goes through [run_playwright]. *)
Definition from_notebook_node (env : Env) (self : SizedWebPDFExporter)
    (nb : notebook) : M bytes :=
  let* html := call (ExportHtml nb) in
  run_playwright env self html.

(** ** The command line *)

Definition convert_notebook (env : Env) (defaults : WebPDFExporter)
    (notebook_path output_path : Path) (page_format : string)
    (allow_download : bool) : M unit :=
  let exporter := SizedWebPDFExporter_init defaults (Some page_format) in
  let exporter := set_allow_chromium_download allow_download exporter in
  let exporter := set_disable_sandbox true exporter in
  let* nb := call (ReadNotebook notebook_path) in
  let* pdf_data := from_notebook_node env exporter nb in
  call (WriteBytes output_path pdf_data).

(** The [argparse.Namespace] that [parse_args] returns. *)
Record Namespace : Type := {
  ns_notebooks : list string;
  ns_page_format : string;
  ns_output_dir : option string;
  ns_allow_chromium_download : bool
}.

(** The [choices] of [--page-format]. *)
Definition page_format_choices : list string :=
  ["A2"; "A3"; "A4"; "Letter"; "Legal"].

(** [parse_args]: [parser] is what [ArgumentParser.parse_args] does with
    the four arguments the script declares; without [argv] it reads
    [sys.argv[1:]]. *)
Definition parse_args (env : Env) (parser : list string -> outcome Namespace)
    (argv : option (list string)) : M Namespace :=
  lift (parser (match argv with
                | Some a => a
                | None => List.tl (sys_argv env)
                end)).

(** The body of the loop of [main]. *)
Definition export_one (env : Env) (defaults : WebPDFExporter)
    (args : Namespace) (nb_path : Path) : M unit :=
  let* found := call (PathExists nb_path) in
  if negb found
  then raise (FileNotFoundError ("Notebook not found: " ++ path_str nb_path))
  else
    let target_dir := match ns_output_dir args with
                      | Some d => resolve env d
                      | None => parent nb_path
                      end in
    let* _ := call (Mkdir target_dir true true) in
    let output_path := joinpath target_dir (stem nb_path ++ ".pdf") in
    let* _ := convert_notebook env defaults nb_path output_path
                (ns_page_format args) (ns_allow_chromium_download args) in
    let* shown := lift (relative_to output_path (cwd env)) in
    call (Print ("Wrote " ++ relpath_str shown)).

Definition main (env : Env) (defaults : WebPDFExporter)
    (parser : list string -> outcome Namespace)
    (argv : option (list string)) : M Z :=
  let* args := parse_args env parser argv in
  let notebooks := List.map (resolve env) (ns_notebooks args) in
  let* _ := for_each notebooks (export_one env defaults args) in
  ret 0%Z.

(** [raise SystemExit(main())]: the exit status of the process. *)
Definition exit_status (r : outcome Z) : Z :=
  match r with
  | Normal code => code
  | Raised (SystemExit code) => code
  | Raised _ => 1
  end.


(** * Specifications of runs *)

(** [emits orc P m Q]: from any world, the events that [m] adds to the log
    all satisfy [P], and a value returned normally satisfies [Q]. *)
Definition emits {A} (orc : oracle) (P : event -> Prop) (m : M A)
    (Q : A -> Prop) : Prop :=
  forall w,
    exists t, log (snd (m orc w)) = log w ++ t /\ Forall P t /\
              forall a, fst (m orc w) = Normal a -> Q a.

(** The keyword dictionary that a render can give to [page.pdf]: with
    [paginate] the initial one, without it the initial one updated with the
    clamped size of a rectangle that the browser reported. *)
Definition pdf_params_of (orc : oracle) (self : SizedWebPDFExporter)
    (params : gmap string pyval) : Prop :=
  if paginate (super self)
  then params = initial_pdf_params self
  else exists h rect,
         orc h Evaluate = Normal rect /\
         params = update_size (measure_script rect) (initial_pdf_params self).

(** Every call that [run_playwright] can make. *)
Inductive render_op (env : Env) (orc : oracle) (self : SizedWebPDFExporter)
    : op -> Prop :=
| ro_temp : render_op env orc self (NamedTemporaryFile ".html")
| ro_write f data : render_op env orc self (TempWrite f data)
| ro_unlink f : render_op env orc self (Unlink f)
| ro_import : render_op env orc self ImportPlaywright
| ro_install :
    allow_chromium_download (super self) = true ->
    render_op env orc self
      (CheckCall [sys_executable env; "-m"; "playwright"; "install"; "chromium"])
| ro_start : render_op env orc self PlaywrightStart
| ro_launch :
    render_op env orc self
      (ChromiumLaunch false false false
         (if disable_sandbox (super self) then ["--no-sandbox"] else []))
| ro_stop : render_op env orc self PlaywrightStop
| ro_new_page : render_op env orc self NewPage
| ro_media : render_op env orc self (EmulateMedia "print")
| ro_wait : render_op env orc self (WaitForTimeout 100)
| ro_goto f : render_op env orc self (Goto ("file://" ++ f) "networkidle")
| ro_evaluate :
    paginate (super self) = false -> render_op env orc self Evaluate
| ro_pdf params :
    pdf_params_of orc self params -> render_op env orc self (PagePdf params)
| ro_close : render_op env orc self BrowserClose.

(** The exporter that [convert_notebook] configures. *)
Definition exporter_for (defaults : WebPDFExporter) (page_format : string)
    (allow_download : bool) : SizedWebPDFExporter :=
  set_disable_sandbox true
    (set_allow_chromium_download allow_download
       (SizedWebPDFExporter_init defaults (Some page_format))).

(** Where [main] sends the PDF of a notebook. *)
Definition target_dir (env : Env) (args : Namespace) (nb_path : Path) : Path :=
  match ns_output_dir args with
  | Some d => resolve env d
  | None => parent nb_path
  end.

Definition output_path (env : Env) (args : Namespace) (nb_path : Path) : Path :=
  joinpath (target_dir env args nb_path) (stem nb_path ++ ".pdf").

(** Every call that [convert_notebook] can make. *)
Inductive convert_op (env : Env) (orc : oracle) (defaults : WebPDFExporter)
    (page_format : string) (allow_download : bool) (out : Path) : op -> Prop :=
| co_read p : convert_op env orc defaults page_format allow_download out (ReadNotebook p)
| co_export nb :
    convert_op env orc defaults page_format allow_download out (ExportHtml nb)
| co_render o :
    render_op env orc (exporter_for defaults page_format allow_download) o ->
    convert_op env orc defaults page_format allow_download out o
| co_write data :
    convert_op env orc defaults page_format allow_download out (WriteBytes out data).

(** Every call that [main] can make once the arguments are parsed. *)
Inductive cli_op (env : Env) (orc : oracle) (defaults : WebPDFExporter)
    (args : Namespace) : op -> Prop :=
| cli_exists p : cli_op env orc defaults args (PathExists p)
| cli_mkdir p : cli_op env orc defaults args (Mkdir p true true)
| cli_print msg : cli_op env orc defaults args (Print msg)
| cli_convert nb_path o :
    In nb_path (List.map (resolve env) (ns_notebooks args)) ->
    convert_op env orc defaults (ns_page_format args)
      (ns_allow_chromium_download args) (output_path env args nb_path) o ->
    cli_op env orc defaults args o.

(** The calls whose answer is the oracle's alone. *)
Definition is_plain (o : op) : bool :=
  match o with
  | NamedTemporaryFile _ | TempWrite _ _ | Unlink _ | CheckCall _
  | ChromiumLaunch _ _ _ _ => false
  | _ => true
  end.

(** ** Reading a log *)

(** The operations on the page of the browser. *)
Definition is_page_op (o : op) : bool :=
  match o with
  | EmulateMedia _ | WaitForTimeout _ | Goto _ _ | Evaluate | PagePdf _ => true
  | _ => false
  end.

Definition page_events (t : list event) : list event :=
  List.filter (fun ev => is_page_op (fst ev)) t.

(** The page operations of a render that goes through, in program order. *)
Definition page_script (self : SizedWebPDFExporter) (f : string)
    (params : gmap string pyval) : list op :=
  [EmulateMedia "print"; WaitForTimeout 100;
   Goto ("file://" ++ f) "networkidle"; WaitForTimeout 100]
  ++ (if paginate (super self) then [] else [Evaluate])
  ++ [PagePdf params].

(** The keyword dictionaries given to [page.pdf], in the order of the calls. *)
Definition pdf_calls (t : list event) : list (gmap string pyval) :=
  omap (fun ev : event =>
          match fst ev with
          | PagePdf params => Some params
          | _ => None
          end) t.

(** The files written by [write_bytes] calls that returned, in order. *)
Definition written (ev : event) : option Path :=
  match ev with
  | (WriteBytes p _, None) => Some p
  | _ => None
  end.

Definition written_paths (t : list event) : list Path := omap written t.

Definition is_launch (o : op) : bool :=
  match o with
  | ChromiumLaunch _ _ _ _ => true
  | _ => false
  end.

Definition is_check_call (o : op) : bool :=
  match o with
  | CheckCall _ => true
  | _ => false
  end.

(** [needle in s] *)
Definition mentions (needle s : string) : bool :=
  match String.index 0 needle s with
  | Some _ => true
  | None => false
  end.

(** The calls of a render that goes through, in program order. *)
Definition render_script (env : Env) (self : SizedWebPDFExporter)
    (f : string) (data : bytes) (params : gmap string pyval) : list op :=
  [NamedTemporaryFile ".html"; TempWrite f data; ImportPlaywright]
  ++ (if allow_chromium_download (super self)
      then [CheckCall [sys_executable env; "-m"; "playwright"; "install";
                       "chromium"]]
      else [])
  ++ [PlaywrightStart;
      ChromiumLaunch false false false
        (if disable_sandbox (super self) then ["--no-sandbox"] else []);
      NewPage]
  ++ page_script self f params
  ++ [BrowserClose; PlaywrightStop; Unlink f].

(** An event for a call that returned normally. *)
Definition returned (o : op) : event := (o, None).

(** ** Counting calls *)

Definition is_temp (o : op) : bool :=
  match o with
  | NamedTemporaryFile _ => true
  | _ => false
  end.

Definition is_start (o : op) : bool :=
  match o with
  | PlaywrightStart => true
  | _ => false
  end.

Definition is_stop (o : op) : bool :=
  match o with
  | PlaywrightStop => true
  | _ => false
  end.

Definition is_goto (o : op) : bool :=
  match o with
  | Goto _ _ => true
  | _ => false
  end.

Definition is_pdf (o : op) : bool :=
  match o with
  | PagePdf _ => true
  | _ => false
  end.

(** How many events of a log are calls of one kind. *)
Definition occurrences (kind : op -> bool) (t : list event) : nat :=
  List.length (List.filter (fun ev : event => kind (fst ev)) t).

(** ** A sample environment

    One machine on which every collaborator does its job, used to run the
    script on concrete inputs. *)
Module Sample.

(** [Path(s).resolve()] for an absolute [s] without links or dots. *)
Fixpoint components (s acc : string) : list string :=
  match s with
  | EmptyString => if String.eqb acc "" then [] else [acc]
  | String c rest =>
      if Ascii.eqb c "/"%char
      then (if String.eqb acc "" then [] else [acc]) ++ components rest ""
      else components rest (acc ++ String c "")
  end.

Definition env : Env :=
  {| sys_executable := "/usr/bin/python3";
     sys_argv := ["export_webpdf.py"; "/tmp/nb.ipynb"];
     cwd := ["home"; "user"];
     resolve := fun s => components s "" |}.

(** A body of 5000 by 9.5 pixels. *)
Definition rect : DomRect := {| rect_width := 5000 # 1; rect_height := 19 # 2 |}.

(** "<h1>" and "%PDF" *)
Definition html : pystr := [60; 104; 49; 62]%Z.
Definition pdf : bytes := [37; 80; 68; 70]%Z.

(** Every call succeeds. *)
Definition oracle_ok : oracle := fun _ o =>
  match o as o' return outcome (ans o') with
  | NamedTemporaryFile _ => Normal "/tmp/tmpq1w2e3.html"
  | Evaluate => Normal rect
  | PagePdf _ => Normal pdf
  | PathExists _ => Normal true
  | ReadNotebook _ => Normal (NotebookNode "{}")
  | ExportHtml _ => Normal html
  | _ => Normal tt
  end.

(** The browser does not start. *)
Definition oracle_no_launch : oracle := fun h o =>
  match o as o' return outcome (ans o') with
  | ChromiumLaunch _ _ _ _ => Raised (PlaywrightError "Target closed")
  | o' => oracle_ok h o'
  end.

(** No notebook is where the command line says. *)
Definition oracle_no_notebook : oracle := fun h o =>
  match o as o' return outcome (ans o') with
  | PathExists _ => Normal false
  | o' => oracle_ok h o'
  end.

(** An empty temporary directory, with and without a browser installed. *)
Definition world0 : world := {| files := ∅; chromium := true; log := [] |}.
Definition world_bare : world := {| files := ∅; chromium := false; log := [] |}.

(** The traits of nbconvert's [WebPDFExporter] as it ships. *)
Definition defaults : WebPDFExporter :=
  {| allow_chromium_download := false; paginate := true; disable_sandbox := false |}.

Definition defaults_unpaginated : WebPDFExporter :=
  {| allow_chromium_download := false; paginate := false; disable_sandbox := false |}.

(** A parser for command lines made of notebooks only. *)
Definition parser (argv : list string) : outcome Namespace :=
  match argv with
  | [] => Raised (SystemExit 2)
  | _ => Normal {| ns_notebooks := argv;
                   ns_page_format := "A3";
                   ns_output_dir := None;
                   ns_allow_chromium_download := false |}
  end.

(** The sample machine, seen from the directory of the notebook. *)
Definition env_tmp : Env :=
  {| sys_executable := "/usr/bin/python3";
     sys_argv := ["export_webpdf.py"; "/tmp/nb.ipynb"];
     cwd := ["tmp"];
     resolve := fun s => components s "" |}.

(** A command line with two notebooks of the same name and [--output-dir]. *)
Definition parser_out (argv : list string) : outcome Namespace :=
  Normal {| ns_notebooks := ["/tmp/a/nb.ipynb"; "/tmp/b/nb.ipynb"];
            ns_page_format := "A4";
            ns_output_dir := Some "/tmp/out";
            ns_allow_chromium_download := false |}.

(** A command line with a notebook that is there and one that is not. *)
Definition parser_two (argv : list string) : outcome Namespace :=
  Normal {| ns_notebooks := ["/tmp/nb.ipynb"; "/tmp/gone.ipynb"];
            ns_page_format := "A4";
            ns_output_dir := None;
            ns_allow_chromium_download := false |}.

(** Only [/tmp/nb.ipynb] exists. *)
Definition oracle_one_notebook : oracle := fun h o =>
  match o as o' return outcome (ans o') with
  | PathExists p => Normal (bool_decide (p = ["tmp"; "nb.ipynb"]))
  | o' => oracle_ok h o'
  end.

(** The calls picked by [bad] raise, every other call succeeds. *)
Definition oracle_failing (bad : op -> option exn) : oracle := fun h o =>
  match bad o with
  | Some e => Raised e
  | None => oracle_ok h o
  end.

Definition oracle_no_engine : oracle :=
  oracle_failing (fun o => match o with
                           | ImportPlaywright =>
                               Some (ModuleNotFoundError "playwright")
                           | _ => None
                           end).

Definition oracle_interrupted_launch : oracle :=
  oracle_failing (fun o => match o with
                           | ChromiumLaunch _ _ _ _ => Some KeyboardInterrupt
                           | _ => None
                           end).

Definition oracle_goto_timeout : oracle :=
  oracle_failing (fun o => match o with
                           | Goto _ _ =>
                               Some (PlaywrightTimeoutError "Timeout 30000ms exceeded")
                           | _ => None
                           end).

Definition oracle_install_fails : oracle :=
  oracle_failing (fun o => match o with
                           | CheckCall _ => Some (CalledProcessError 1)
                           | _ => None
                           end).

(** The exporter of the command line, without and with the download. *)
Definition exporter : SizedWebPDFExporter :=
  exporter_for defaults "A4" false.

Definition exporter_downloading : SizedWebPDFExporter :=
  exporter_for defaults "A4" true.

End Sample.

(** * Reasoning about runs *)

(** ** What a run emits *)

Section Emits.
Context (orc : oracle) (P : event -> Prop).

#[local] Abbreviation emits := (emits orc P).

Lemma emits_ret {A} (a : A) (Q : A -> Prop) : Q a -> emits (ret a) Q.
Proof.
  intros Ha w. exists []. cbn. rewrite app_nil_r.
  repeat split; [constructor | congruence].
Qed.

Lemma emits_raise {A} (e : exn) (Q : A -> Prop) : emits (raise e) Q.
Proof.
  intros w. exists []. cbn. rewrite app_nil_r.
  repeat split; [constructor | discriminate].
Qed.

Lemma emits_lift {A} (r : outcome A) (Q : A -> Prop) :
  (forall a, r = Normal a -> Q a) -> emits (lift r) Q.
Proof.
  intros Hr w. exists []. cbn. rewrite app_nil_r.
  repeat split; [constructor | exact Hr].
Qed.

Lemma emits_bind {A B} (m : M A) (k : A -> M B) (Q : A -> Prop) (R : B -> Prop) :
  emits m Q -> (forall a, Q a -> emits (k a) R) -> emits (bind m k) R.
Proof.
  intros Hm Hk w. destruct (Hm w) as (t & Hlog & Ht & Hq).
  unfold bind. destruct (m orc w) as [[a | e] w1]; cbn in *.
  - destruct (Hk a (Hq a eq_refl) w1) as (t' & Hlog' & Ht' & Hr).
    exists (t ++ t'). rewrite Hlog', Hlog, app_assoc.
    repeat split; [apply Forall_app; auto | exact Hr].
  - exists t. repeat split; [assumption.. | discriminate].
Qed.

(** A call adds itself to the log; what it answers is what [respond]
    makes of the oracle's word. *)
Lemma emits_call (o : op) (Q : ans o -> Prop) :
  (forall s, P (o, s)) ->
  (forall w a, fst (respond orc w o) = Normal a -> Q a) ->
  emits (call o) Q.
Proof.
  intros Ho Hq w. exists [(o, raised (fst (respond orc w o)))]. unfold call.
  specialize (Hq w).
  assert (Hlog : log (snd (respond orc w o)) = log w).
  { destruct o; cbn; repeat case_match; reflexivity. }
  destruct (respond orc w o) as [r w1]; cbn in *.
  rewrite Hlog. repeat split; [repeat constructor; apply Ho | exact Hq].
Qed.

Lemma emits_call_any (o : op) :
  (forall s, P (o, s)) -> emits (call o) (fun _ => True).
Proof. intros Ho. apply emits_call; auto. Qed.

Lemma emits_try_except {A} (body : M A) (handler : exn -> option (M A))
    (Q : A -> Prop) :
  emits body Q ->
  (forall e h, handler e = Some h -> emits h Q) ->
  emits (try_except body handler) Q.
Proof.
  intros Hb Hh w. destruct (Hb w) as (t & Hlog & Ht & Hq).
  unfold try_except. destruct (body orc w) as [[a | e] w1]; cbn in *.
  - exists t. auto.
  - destruct (handler e) as [h |] eqn:He.
    + destruct (Hh e h He w1) as (t' & Hlog' & Ht' & Hr).
      exists (t ++ t'). rewrite Hlog', Hlog, app_assoc.
      repeat split; [apply Forall_app; auto | exact Hr].
    + exists t. repeat split; [assumption.. | discriminate].
Qed.

Lemma emits_try_finally {A} (body : M A) (cleanup : M unit) (Q : A -> Prop) :
  emits body Q ->
  emits cleanup (fun _ => True) ->
  emits (try_finally body cleanup) Q.
Proof.
  intros Hb Hc w. destruct (Hb w) as (t & Hlog & Ht & Hq).
  unfold try_finally. destruct (body orc w) as [r w1]; cbn in *.
  destruct (Hc w1) as (t' & Hlog' & Ht' & _).
  exists (t ++ t').
  destruct (cleanup orc w1) as [[u | e] w2]; cbn in *;
    rewrite Hlog', Hlog, app_assoc;
    (repeat split; [apply Forall_app; auto | auto; discriminate]).
Qed.

Lemma emits_for_each {A} (l : list A) (body : A -> M unit) :
  (forall x, In x l -> emits (body x) (fun _ => True)) ->
  emits (for_each l body) (fun _ => True).
Proof.
  induction l as [| x l IH]; intros Hb; cbn [for_each].
  - apply emits_ret. exact I.
  - apply emits_bind with (Q := fun _ => True).
    + apply Hb. left. reflexivity.
    + intros _ _. apply IH. intros y Hy. apply Hb. right. exact Hy.
Qed.
End Emits.

(** ** The calls of one render *)

Create HintDb render.
#[local] Hint Constructors render_op : render.

(** A call whose answer does not matter. *)
Ltac emits_call :=
  lazymatch goal with
  | |- emits ?orc ?P (call ?o) _ =>
      refine (emits_call_any orc P o _); intros ?; cbn [fst]; auto with render
  end.

Lemma run_playwright_main_emits env orc self f :
  emits orc (fun ev => render_op env orc self (fst ev))
        (run_playwright_main env self f) (fun _ => True).
Proof.
  unfold run_playwright_main.
  eapply emits_bind with (Q := fun _ => True); [| intros _ _].
  { apply emits_try_except; [emits_call |].
    intros e h He.
    destruct (is_ModuleNotFoundError e); [injection He as <- | discriminate He].
    apply emits_raise. }
  eapply emits_bind with (Q := fun _ => True); [| intros _ _].
  { destruct (allow_chromium_download (super self)) eqn:Hallow.
    - emits_call.
    - apply emits_ret. exact I. }
  eapply emits_bind with (Q := fun _ => True); [| intros _ _].
  { emits_call. }
  eapply emits_bind with (Q := fun _ => True); [| intros _ _].
  { apply emits_try_except; [emits_call |].
    intros e h He.
    destruct (is_Exception e); [injection He as <- | discriminate He].
    eapply emits_bind with (Q := fun _ => True); [| intros _ _].
    - emits_call.
    - apply emits_raise. }
  do 5 (eapply emits_bind with (Q := fun _ => True);
        [emits_call | intros _ _]).
  eapply emits_bind with (Q := pdf_params_of orc self).
  { unfold pdf_params_of.
    destruct (paginate (super self)) eqn:Hpag; cbn [negb].
    - apply emits_ret. reflexivity.
    - eapply emits_bind
        with (Q := fun dimensions =>
                exists h rect, orc h Evaluate = Normal rect /\
                               dimensions = measure_script rect).
      + unfold page_evaluate.
        eapply emits_bind
          with (Q := fun rect => exists h, orc h Evaluate = Normal rect).
        * apply emits_call; [intros ?; cbn [fst]; auto with render |].
          intros w rect Hw. exists (log w). exact Hw.
        * intros rect [h Hh]. apply emits_ret. exists h, rect. auto.
      + intros dimensions (h & rect & Hh & ->).
        apply emits_ret. exists h, rect. auto. }
  intros params Hparams.
  eapply emits_bind with (Q := fun _ => True); [| intros pdf_data _].
  { emits_call. }
  do 2 (eapply emits_bind with (Q := fun _ => True);
        [emits_call | intros _ _]).
  apply emits_ret. exact I.
Qed.

Lemma run_playwright_emits env orc self html :
  emits orc (fun ev => render_op env orc self (fst ev))
        (run_playwright env self html) (fun _ => True).
Proof.
  unfold run_playwright.
  eapply emits_bind with (Q := fun _ => True); [| intros f _].
  { emits_call. }
  eapply emits_bind with (Q := fun _ => True); [| intros data _].
  { apply emits_lift. auto. }
  eapply emits_bind with (Q := fun _ => True); [| intros _ _].
  { emits_call. }
  apply emits_try_finally.
  - apply run_playwright_main_emits.
  - emits_call.
Qed.

(** ** The calls of a conversion and of the command line *)

#[local] Hint Constructors convert_op cli_op : render.

Lemma emits_impl {A} orc (P P' : event -> Prop) (m : M A) (Q : A -> Prop) :
  emits orc P m Q -> (forall ev, P ev -> P' ev) -> emits orc P' m Q.
Proof.
  intros Hm HP w. destruct (Hm w) as (t & Hlog & Ht & Hq).
  exists t. repeat split; auto.
  eapply Forall_impl; [exact Ht | exact HP].
Qed.

Lemma convert_notebook_emits env orc defaults nb_path out page_format allow :
  emits orc
    (fun ev => convert_op env orc defaults page_format allow out (fst ev))
    (convert_notebook env defaults nb_path out page_format allow)
    (fun _ => True).
Proof.
  unfold convert_notebook.
  eapply emits_bind with (Q := fun _ => True); [emits_call | intros nb _].
  eapply emits_bind with (Q := fun _ => True); [| intros pdf_data _].
  - unfold from_notebook_node.
    eapply emits_bind with (Q := fun _ => True); [emits_call | intros html _].
    eapply emits_impl; [apply run_playwright_emits |].
    intros ev Hev. apply co_render. exact Hev.
  - emits_call.
Qed.

Lemma export_one_emits env orc defaults args nb_path :
  In nb_path (List.map (resolve env) (ns_notebooks args)) ->
  emits orc (fun ev => cli_op env orc defaults args (fst ev))
    (export_one env defaults args nb_path) (fun _ => True).
Proof.
  intros Hin. unfold export_one.
  eapply emits_bind with (Q := fun _ => True); [emits_call | intros found _].
  destruct found; cbn [negb]; [| apply emits_raise].
  eapply emits_bind with (Q := fun _ => True); [emits_call | intros _ _].
  eapply emits_bind with (Q := fun _ => True); [| intros _ _].
  - eapply emits_impl; [apply convert_notebook_emits |].
    intros ev Hev. eapply cli_convert; [exact Hin | exact Hev].
  - eapply emits_bind with (Q := fun _ => True); [| intros shown _].
    + apply emits_lift. auto.
    + emits_call.
Qed.

Lemma main_emits env orc defaults parser argv :
  emits orc
    (fun ev => exists args,
         parser (match argv with
                 | Some a => a
                 | None => List.tl (sys_argv env)
                 end) = Normal args /\
         cli_op env orc defaults args (fst ev))
    (main env defaults parser argv) (fun _ => True).
Proof.
  unfold main.
  eapply emits_bind
    with (Q := fun args => parser (match argv with
                                   | Some a => a
                                   | None => List.tl (sys_argv env)
                                   end) = Normal args).
  - unfold parse_args. apply emits_lift. auto.
  - intros args Hargs.
    eapply emits_bind with (Q := fun _ => True); [| intros _ _; apply emits_ret; auto].
    apply emits_for_each. intros nb_path Hin.
    eapply emits_impl; [apply export_one_emits; exact Hin |].
    intros ev Hev. exists args. auto.
Qed.

(** ** Running the script step by step *)

Lemma bind_unfold {A B} (m : M A) (k : A -> M B) orc w :
  bind m k orc w =
  match m orc w with
  | (Normal a, w') => k a orc w'
  | (Raised e, w') => (Raised e, w')
  end.
Proof. reflexivity. Qed.

Lemma try_except_unfold {A} (body : M A) handler orc w :
  try_except body handler orc w =
  match body orc w with
  | (Normal a, w') => (Normal a, w')
  | (Raised e, w') =>
      match handler e with
      | Some h => h orc w'
      | None => (Raised e, w')
      end
  end.
Proof. reflexivity. Qed.

Lemma try_finally_unfold {A} (body : M A) cleanup orc w :
  try_finally body cleanup orc w =
  match body orc w with
  | (r, w') =>
      match cleanup orc w' with
      | (Normal _, w'') => (r, w'')
      | (Raised e, w'') => (Raised e, w'')
      end
  end.
Proof. reflexivity. Qed.

Lemma call_plain (o : op) orc w :
  is_plain o = true ->
  call o orc w =
  match orc (log w) o with
  | Normal a => (Normal a, record (o, None) w)
  | Raised e => (Raised e, record (o, Some e) w)
  end.
Proof.
  intros Hp. unfold call.
  destruct o; try discriminate Hp; cbn; destruct (orc _ _); reflexivity.
Qed.

Lemma call_launch hi ht hh args orc w :
  call (ChromiumLaunch hi ht hh args) orc w =
  if chromium w
  then match orc (log w) (ChromiumLaunch hi ht hh args) with
       | Normal a => (Normal a, record (ChromiumLaunch hi ht hh args, None) w)
       | Raised e => (Raised e, record (ChromiumLaunch hi ht hh args, Some e) w)
       end
  else (Raised (PlaywrightError "Executable doesn't exist"),
        record (ChromiumLaunch hi ht hh args,
                Some (PlaywrightError "Executable doesn't exist")) w).
Proof.
  unfold call. cbn. destruct (chromium w); [destruct (orc _ _) |]; reflexivity.
Qed.

Lemma call_install exe orc w :
  let cmd := [exe; "-m"; "playwright"; "install"; "chromium"] in
  call (CheckCall cmd) orc w =
  match orc (log w) (CheckCall cmd) with
  | Normal _ => (Normal tt, record (CheckCall cmd, None) (set_chromium true w))
  | Raised e => (Raised e, record (CheckCall cmd, Some e) w)
  end.
Proof. unfold call. cbn. destruct (orc _ _); reflexivity. Qed.

Lemma call_temp sfx orc w :
  call (NamedTemporaryFile sfx) orc w =
  match orc (log w) (NamedTemporaryFile sfx) with
  | Normal f =>
      match files w !! f with
      | None => (Normal f, record (NamedTemporaryFile sfx, None)
                             (set_files (<[f := []]> (files w)) w))
      | Some _ => (Raised (FileExistsError f),
                   record (NamedTemporaryFile sfx, Some (FileExistsError f)) w)
      end
  | Raised e => (Raised e, record (NamedTemporaryFile sfx, Some e) w)
  end.
Proof.
  unfold call. cbn. destruct (orc _ _); [destruct (files w !! _) |]; reflexivity.
Qed.

Lemma call_temp_write f data orc w :
  call (TempWrite f data) orc w =
  match files w !! f with
  | Some _ => (Normal tt, record (TempWrite f data, None)
                            (set_files (<[f := data]> (files w)) w))
  | None => (Raised (FileNotFoundError f),
             record (TempWrite f data, Some (FileNotFoundError f)) w)
  end.
Proof. unfold call. cbn. destruct (files w !! _); reflexivity. Qed.

Lemma call_unlink f orc w :
  call (Unlink f) orc w =
  match files w !! f with
  | Some _ => (Normal tt, record (Unlink f, None)
                            (set_files (delete f (files w)) w))
  | None => (Raised (FileNotFoundError f),
             record (Unlink f, Some (FileNotFoundError f)) w)
  end.
Proof. unfold call. cbn. destruct (files w !! _); reflexivity. Qed.

Ltac exec_simpl :=
  cbv beta iota zeta delta
      [ret raise lift record page_evaluate
       set_files set_chromium log files chromium].

(** Ask the environment: one case for each answer it can give. *)
Ltac exec_case :=
  match goal with
  | |- context [match ?orc ?h ?o with Normal _ => _ | Raised _ => _ end] =>
      let a := fresh "a" in let e := fresh "e" in let E := fresh "Ho" in
      destruct (orc h o) as [a | e] eqn:E
  | |- context [if is_Exception ?e then _ else _] =>
      let E := fresh "He" in destruct (is_Exception e) eqn:E
  | |- context [if is_ModuleNotFoundError ?e then _ else _] =>
      let E := fresh "He" in destruct (is_ModuleNotFoundError e) eqn:E
  | |- context [if negb ?b then _ else _] => is_var b; destruct b; cbn [negb]
  | |- context [if ?b then ?x else _] =>
      is_var b;
      lazymatch type of x with
      | list string => fail
      | _ => lazymatch type of b with bool => destruct b end
      end
  end.

Ltac exec_step :=
  first [ exec_case
        | rewrite bind_unfold | rewrite try_except_unfold
        | rewrite try_finally_unfold
        | rewrite call_plain by reflexivity
        | rewrite call_launch | rewrite call_install
        | rewrite call_unlink | rewrite call_temp_write ];
  exec_simpl;
  rewrite ?lookup_insert_eq.

Ltac exec := exec_simpl; repeat exec_step.

(** Entering [run_playwright]: the temporary file is created, then the
    page is encoded. *)
Ltac exec_enter :=
  unfold run_playwright, run_playwright_main;
  cbn [super allow_chromium_download paginate disable_sandbox _page_format negb];
  rewrite bind_unfold, call_temp; exec_simpl;
  match goal with
  | |- context [match ?orc ?h ?o with Normal _ => _ | Raised _ => _ end] =>
      let f := fresh "f" in let e := fresh "e" in let E := fresh "Htemp" in
      destruct (orc h o) as [f | e] eqn:E;
      [ let Hf := fresh "Hfresh" in
        match goal with
        | |- context [?m !! f] => destruct (m !! f) eqn:Hf
        end
      | ]
  end;
  exec_simpl;
  try (rewrite bind_unfold; exec_simpl;
       match goal with
       | |- context [encode_utf8 ?s] =>
           let E := fresh "Hencode" in destruct (encode_utf8 s) eqn:E
       end; exec_simpl).

(** The log of a finished run, as the old log and what was added. *)
Ltac log_shape := rewrite <- ?app_assoc; cbn [app].

(** ** The keyword dictionary of [page.pdf] *)

(** The four keys, looked up by computation. *)
Lemma initial_pdf_params_lookup self :
  initial_pdf_params self !! "print_background" = Some (VBool true) /\
  initial_pdf_params self !! "format" = Some (of_optional_str (_page_format self)) /\
  initial_pdf_params self !! "width" = None /\
  initial_pdf_params self !! "height" = None.
Proof. repeat split; reflexivity. Qed.

Lemma update_size_lookup dimensions params :
  update_size dimensions params !! "print_background" = params !! "print_background" /\
  update_size dimensions params !! "format" = params !! "format" /\
  update_size dimensions params !! "width" =
    Some (VInt (Z.min (width dimensions) (200 * 72))) /\
  update_size dimensions params !! "height" =
    Some (VInt (Z.min (height dimensions) (200 * 72))).
Proof.
  unfold update_size.
  repeat split;
    repeat first [rewrite lookup_insert_eq | rewrite lookup_insert_ne by discriminate];
    reflexivity.
Qed.

Lemma initial_pdf_params_dom self :
  dom (initial_pdf_params self) = ({["format"; "print_background"]} : gset string).
Proof.
  unfold initial_pdf_params.
  rewrite !dom_insert_L, dom_empty_L, union_empty_r_L. reflexivity.
Qed.

Lemma update_size_dom dimensions params :
  dom (update_size dimensions params) =
  ({["height"; "width"]} : gset string) ∪ dom params.
Proof.
  unfold update_size. rewrite !dom_insert_L, (assoc_L (∪)). reflexivity.
Qed.

(** The events of a log before the measurement. *)
Ltac before_evaluate l :=
  lazymatch l with
  | (Evaluate, _) :: _ => constr:(@nil event)
  | ?x :: ?rest => let p := before_evaluate rest in constr:(x :: p)
  end.

(** Membership in an explicit log, one event at a time. *)
Ltac in_cases H :=
  cbn [In] in H;
  repeat (destruct H as [H | H]; [try discriminate H |]);
  try contradiction H.

(** ** A render that returns *)

(** A render returns only after every call of [render_script] has
    returned normally, in that order. *)
Lemma run_playwright_returned env self html orc w :
  let (r, w') := run_playwright env self html orc w in
  forall pdf, r = Normal pdf ->
    exists f data params,
      orc (log w) (NamedTemporaryFile ".html") = Normal f /\
      encode_utf8 html = Some data /\
      pdf_params_of orc self params /\
      log w' = log w ++ List.map returned (render_script env self f data params).
Proof.
  destruct self as [[allow pag sandbox] fmt], w as [fs ch lg].
  unfold render_script, page_script, pdf_params_of.
  cbn [super allow_chromium_download paginate disable_sandbox _page_format log].
  exec_enter; exec; log_shape.
  all: intros pdf [=]; subst.
  all: eexists _, _, _; split; [reflexivity |].
  all: split; [reflexivity |].
  all: split; [| reflexivity].
  all: first [reflexivity | eexists _, _; split; [eassumption | reflexivity]].
Qed.

Lemma render_script_pdf env self f data params :
  In (PagePdf params) (render_script env self f data params).
Proof.
  unfold render_script, page_script.
  rewrite !in_app_iff. do 3 right. left. do 2 right. left. reflexivity.
Qed.

Lemma render_script_launch env self f data params :
  In (ChromiumLaunch false false false
        (if disable_sandbox (super self) then ["--no-sandbox"] else []))
     (render_script env self f data params).
Proof.
  unfold render_script.
  rewrite !in_app_iff. do 2 right. left. right. left. reflexivity.
Qed.

Lemma in_returned (o : op) (l : list op) : In o l -> In (returned o) (List.map returned l).
Proof. apply in_map. Qed.

(** The events of a log before the launch of the browser. *)
Ltac before_launch l :=
  lazymatch l with
  | (ChromiumLaunch _ _ _ _, _) :: _ => constr:(@nil event)
  | ?x :: ?rest => let p := before_launch rest in constr:(x :: p)
  end.

(** ** Conversions *)

Lemma written_paths_app t1 t2 :
  written_paths (t1 ++ t2) = written_paths t1 ++ written_paths t2.
Proof. apply omap_app. Qed.

Lemma written_paths_cons ev t :
  written_paths (ev :: t) =
  match written ev with
  | Some p => p :: written_paths t
  | None => written_paths t
  end.
Proof. unfold written_paths. cbn [omap list_omap]. destruct (written ev); reflexivity. Qed.

Lemma written_paths_render env orc self t :
  Forall (fun ev : event => render_op env orc self (fst ev)) t ->
  written_paths t = [].
Proof.
  induction 1 as [| [o s] t Ho _ IH]; [reflexivity |].
  unfold written_paths in *. cbn [omap list_omap written]. 
  cbn [fst] in Ho. inversion Ho; subst; exact IH.
Qed.

Lemma from_notebook_node_emits env orc self nb :
  emits orc (fun ev => fst ev = ExportHtml nb \/ render_op env orc self (fst ev))
    (from_notebook_node env self nb) (fun _ => True).
Proof.
  unfold from_notebook_node.
  eapply emits_bind with (Q := fun _ => True); [| intros html _].
  - apply emits_call_any. intros s. left. reflexivity.
  - eapply emits_impl; [apply run_playwright_emits |].
    intros ev Hev. right. exact Hev.
Qed.

(** A conversion that returns has read the notebook, had it rendered to a
    page, rendered the page, and written the PDF, each with success. *)
Lemma convert_notebook_returned env defaults nb_path out page_format allow orc w :
  let (r, w') := convert_notebook env defaults nb_path out page_format allow orc w in
  r = Normal tt ->
  exists nb f data params pdf,
    pdf_params_of orc (exporter_for defaults page_format allow) params /\
    log w' = log w ++
      returned (ReadNotebook nb_path) :: returned (ExportHtml nb) ::
      List.map returned
        (render_script env (exporter_for defaults page_format allow) f data params)
      ++ [returned (WriteBytes out pdf)].
Proof.
  unfold convert_notebook, from_notebook_node.
  fold (exporter_for defaults page_format allow).
  rewrite bind_unfold, call_plain by reflexivity.
  destruct (orc (log w) (ReadNotebook nb_path)) as [nb | e]; [| discriminate].
  rewrite !bind_unfold, call_plain by reflexivity. cbn [record log].
  destruct (orc _ (ExportHtml nb)) as [html | e]; [| discriminate].
  match goal with
  | |- context [run_playwright ?env ?self ?html ?orc ?w1] =>
      pose proof (run_playwright_returned env self html orc w1) as Hret;
      destruct (run_playwright env self html orc w1) as [[pdf | e] w2]
  end; [| discriminate].
  destruct (Hret pdf eq_refl) as (f & data & params & _ & _ & Hparams & Hlog).
  rewrite call_plain by reflexivity.
  destruct (orc (log w2) (WriteBytes out pdf)) as [[] | e]; [| discriminate].
  intros _. exists nb, f, data, params, pdf. split; [exact Hparams |].
  cbn [record log] in *. rewrite Hlog, <- !app_assoc. reflexivity.
Qed.

(** A conversion writes its output file as its last step, and nothing
    else. *)
Lemma convert_notebook_written env defaults nb_path out page_format allow orc w :
  let (r, w') := convert_notebook env defaults nb_path out page_format allow orc w in
  exists t,
    log w' = log w ++ t /\
    ((r = Normal tt /\ written_paths t = [out]) \/
     (exists e, r = Raised e /\ written_paths t = [])).
Proof.
  unfold convert_notebook.
  rewrite bind_unfold, call_plain by reflexivity.
  destruct (orc (log w) (ReadNotebook nb_path)) as [nb | e].
  2: { eexists. split; [reflexivity |]. right. eauto. }
  rewrite bind_unfold.
  match goal with
  | |- context [from_notebook_node ?env ?self ?nb ?orc ?w1] =>
      pose proof (from_notebook_node_emits env orc self nb w1)
        as (t1 & Hlog1 & Ht1 & _);
      destruct (from_notebook_node env self nb orc w1) as [[pdf | e] w2]
  end; cbn [fst snd record log] in Hlog1.
  all: assert (Hnone : written_paths t1 = []).
  1, 3: (clear - Ht1; induction Ht1 as [| [o s] t Ho _ IH]; [reflexivity |];
         unfold written_paths in *; cbn [omap list_omap written];
         cbn [fst] in Ho; destruct Ho as [-> | Ho]; [exact IH |];
         inversion Ho; subst; exact IH).
  - rewrite call_plain by reflexivity.
    destruct (orc (log w2) (WriteBytes out pdf)) as [[] | e];
      cbn [record log]; rewrite Hlog1, <- !app_assoc;
      (eexists; split; [reflexivity |]);
      cbn [app]; rewrite written_paths_cons, written_paths_app, Hnone;
      [left | right]; eauto.
  - rewrite Hlog1, <- !app_assoc.
    eexists; split; [reflexivity |].
    cbn [app]. rewrite written_paths_cons. cbn [written].
    right. eauto.
Qed.

(** ** The loop of [main] *)

Lemma export_one_written env defaults args nb_path orc w :
  let (r, w') := export_one env defaults args nb_path orc w in
  exists t,
    log w' = log w ++ t /\
    (written_paths t = [output_path env args nb_path] \/
     (exists e, r = Raised e /\ written_paths t = [])).
Proof.
  unfold export_one.
  fold (target_dir env args nb_path). fold (output_path env args nb_path).
  rewrite bind_unfold, call_plain by reflexivity.
  destruct (orc (log w) (PathExists nb_path)) as [[|] | e]; cbn [negb].
  2, 3: eexists; (split; [reflexivity |]); right; eauto.
  rewrite bind_unfold, call_plain by reflexivity. cbn [record log].
  destruct (orc _ (Mkdir _ _ _)) as [[] | e].
  2: { cbn [record log]. rewrite <- app_assoc. eexists. split; [reflexivity |].
       right. eauto. }
  rewrite bind_unfold.
  match goal with
  | |- context [convert_notebook ?env ?d ?p ?out ?fmt ?allow ?orc ?w1] =>
      pose proof (convert_notebook_written env d p out fmt allow orc w1) as Hconv;
      destruct (convert_notebook env d p out fmt allow orc w1) as [r1 w2]
  end.
  destruct Hconv as (t1 & Hlog1 & Hw). cbn [record log] in Hlog1.
  destruct Hw as [[-> Hw] | (e & -> & Hw)].
  - rewrite bind_unfold. unfold lift.
    destruct (relative_to _ _) as [shown | e].
    + rewrite call_plain by reflexivity.
      destruct (orc (log w2) (Print _)) as [[] | e]; cbn [record log];
        rewrite Hlog1, <- !app_assoc; cbn [app];
        (eexists; split; [reflexivity |]); left;
        rewrite !written_paths_cons, written_paths_app, Hw; reflexivity.
    + rewrite Hlog1, <- !app_assoc; cbn [app].
      eexists; split; [reflexivity |]. left.
      rewrite !written_paths_cons. exact Hw.
  - rewrite Hlog1, <- !app_assoc; cbn [app].
    eexists; split; [reflexivity |]. right. exists e.
    rewrite !written_paths_cons. auto.
Qed.

(** The loop stops at the first notebook that fails; until then every
    notebook has its output file written, in the order of the command
    line. *)
Lemma for_each_export_written env defaults args orc notebooks :
  forall w,
    let (r, w') := for_each notebooks (export_one env defaults args) orc w in
    exists t k,
      log w' = log w ++ t /\
      k <= List.length notebooks /\
      (r = Normal tt -> k = List.length notebooks) /\
      written_paths t = List.map (output_path env args) (firstn k notebooks).
Proof.
  induction notebooks as [| nb rest IH]; intros w.
  - cbn. exists [], 0. rewrite app_nil_r. auto.
  - cbn [for_each]. rewrite bind_unfold.
    pose proof (export_one_written env defaults args nb orc w) as Hone.
    destruct (export_one env defaults args nb orc w) as [[[] | e] w1].
    + destruct Hone as (t1 & Hlog1 & [Hw | (e & He & _)]); [| discriminate].
      specialize (IH w1).
      destruct (for_each rest (export_one env defaults args) orc w1) as [r w2].
      destruct IH as (t2 & k & Hlog2 & Hk & Hall & Hw2).
      exists (t1 ++ t2), (S k). rewrite Hlog2, Hlog1, app_assoc.
      split; [reflexivity |]. cbn [List.length firstn List.map].
      split; [lia |]. split; [intros Hr; rewrite (Hall Hr); reflexivity |].
      rewrite written_paths_app, Hw, Hw2. reflexivity.
    + destruct Hone as (t1 & Hlog1 & [Hw | (e' & _ & Hw)]).
      * exists t1, 1. cbn [List.length firstn List.map].
        repeat split; [exact Hlog1 | lia | discriminate | exact Hw].
      * exists t1, 0. cbn [List.length firstn List.map].
        repeat split; [exact Hlog1 | lia | discriminate | exact Hw].
Qed.

Lemma output_path_name env args nb_path :
  name (output_path env args nb_path) = (stem nb_path ++ ".pdf")%string.
Proof. unfold name, output_path, joinpath. apply last_last. Qed.

Lemma output_path_parent env args nb_path :
  parent (output_path env args nb_path) = target_dir env args nb_path.
Proof. unfold parent, output_path, joinpath. apply removelast_last. Qed.

(** A notebook that is not there ends the run at once. *)
Lemma export_one_missing env defaults args nb_path (orc : oracle) w :
  orc (log w) (PathExists nb_path) = Normal false ->
  export_one env defaults args nb_path orc w =
  (Raised (FileNotFoundError ("Notebook not found: " ++ path_str nb_path)%string),
   record (PathExists nb_path, None) w).
Proof.
  intros Hmissing. unfold export_one.
  rewrite bind_unfold, call_plain, Hmissing by reflexivity. reflexivity.
Qed.

(** ** The exporter of [convert_notebook] *)

Lemma convert_op_launch env orc defaults page_format allow out hi ht hh args :
  convert_op env orc defaults page_format allow out
    (ChromiumLaunch hi ht hh args) ->
  args = ["--no-sandbox"].
Proof.
  intros Hop. inversion Hop as [ | | o Hrender | ]; subst.
  inversion Hrender; subst. reflexivity.
Qed.

Lemma convert_op_evaluate env orc defaults page_format allow out :
  paginate defaults = true ->
  ~ convert_op env orc defaults page_format allow out Evaluate.
Proof.
  intros Hpag Hop. inversion Hop as [ | | o Hrender | ]; subst.
  inversion Hrender as [ | | | | | | | | | | | | Hoff | | ]; subst.
  cbn in Hoff. congruence.
Qed.

Lemma convert_op_pdf env orc defaults page_format allow out params :
  paginate defaults = true ->
  convert_op env orc defaults page_format allow out (PagePdf params) ->
  params = initial_pdf_params (exporter_for defaults page_format allow).
Proof.
  intros Hpag Hop. inversion Hop as [ | | o Hrender | ]; subst.
  inversion Hrender as [ | | | | | | | | | | | | | params' Hparams | ]; subst.
  unfold pdf_params_of in Hparams. cbn [exporter_for set_disable_sandbox
    set_allow_chromium_download SizedWebPDFExporter_init super paginate] in Hparams.
  rewrite Hpag in Hparams. exact Hparams.
Qed.

Lemma exporter_for_params defaults page_format allow :
  let params := initial_pdf_params (exporter_for defaults page_format allow) in
  params !! "print_background" = Some (VBool true) /\
  params !! "format" = Some (VStr page_format) /\
  params !! "width" = None /\
  params !! "height" = None.
Proof. apply initial_pdf_params_lookup. Qed.

(** From the log of [main] to the conversion an event belongs to. *)
Lemma main_event_convert env orc defaults parser argv t o s :
  Forall (fun ev : event =>
            exists args,
              parser (match argv with
                      | Some a => a
                      | None => List.tl (sys_argv env)
                      end) = Normal args /\
              cli_op env orc defaults args (fst ev)) t ->
  In (o, s) t ->
  is_plain o = false \/ o = Evaluate \/ (exists params, o = PagePdf params) ->
  exists args nb_path,
    parser (match argv with
            | Some a => a
            | None => List.tl (sys_argv env)
            end) = Normal args /\
    convert_op env orc defaults (ns_page_format args)
      (ns_allow_chromium_download args) (output_path env args nb_path) o.
Proof.
  intros Ht Hin Hkind. rewrite List.Forall_forall in Ht.
  destruct (Ht _ Hin) as (args & Hargs & Hop). cbn [fst] in Hop.
  inversion Hop as [ | | | nb_path o' _ Hconv]; subst.
  - destruct Hkind as [Hk | [Hk | [? Hk]]]; discriminate Hk.
  - destruct Hkind as [Hk | [Hk | [? Hk]]]; discriminate Hk.
  - destruct Hkind as [Hk | [Hk | [? Hk]]]; discriminate Hk.
  - exists args, nb_path. auto.
Qed.

(** * The claims *)

(** C1, as stated, fails.  An exporter without a page format but with
    [paginate] left on, as nbconvert ships it, prints with neither a width
    nor a height. *)
Lemma auto_size_not_selected_by_page_format :
  let self := SizedWebPDFExporter_init Sample.defaults None in
  _page_format self = None /\
  List.map (fun params : gmap string pyval =>
              (params !! "width", params !! "height"))
    (pdf_calls (log (snd (run_playwright Sample.env self Sample.html
                            Sample.oracle_ok Sample.world0))))
  = [(None, None)].
Proof. split; [reflexivity | vm_compute; reflexivity]. Qed.

(** C1, amended.  The size override is selected by [paginate] being off,
    whatever the page format.  Then every [page.pdf] call comes right
    after a measurement that returned, and its width and height are the
    measured ones, rounded up, plus one, clamped to 200 * 72; the numbers
    go from the script to the print parameters unchanged.  A render that
    returns has made that call. *)
Theorem size_override_without_paginate env self html orc w :
  paginate (super self) = false ->
  let (r, w') := run_playwright env self html orc w in
  exists t,
    log w' = log w ++ t /\
    (forall params s, In (PagePdf params, s) t ->
       exists t1 t2 rect,
         t = t1 ++ (Evaluate, None) :: (PagePdf params, s) :: t2 /\
         orc (log w ++ t1) Evaluate = Normal rect /\
         params !! "width" =
           Some (VInt (Z.min (Qceiling (rect_width rect) + 1) (200 * 72))) /\
         params !! "height" =
           Some (VInt (Z.min (Qceiling (rect_height rect) + 1) (200 * 72)))) /\
    (forall pdf, r = Normal pdf -> exists params, In (PagePdf params, None) t).
Proof.
  destruct self as [[allow pag sandbox] fmt], w as [fs ch lg].
  cbn [super paginate log]. intros ->.
  exec_enter; exec; log_shape.
  all: eexists; split; [reflexivity |].
  all: split; [| intros pdf [=]; subst; eexists; cbn [In]; eauto 20].
  all: intros params s Hin; in_cases Hin.
  all: injection Hin as <- <-.
  all: lazymatch goal with
       | |- exists t1 t2 rect, ?l = _ /\ _ =>
           let p := before_evaluate l in exists p
       end.
  all: eexists _, _; split; [reflexivity |].
  all: rewrite <- ?app_assoc in *; cbn [app] in *.
  all: split; [eassumption |].
  all: split; apply update_size_lookup.
Qed.

Lemma size_override_without_paginate_witness :
  let self := SizedWebPDFExporter_init Sample.defaults_unpaginated None in
  paginate (super self) = false /\
  let (r, w') := run_playwright Sample.env self Sample.html
                   Sample.oracle_ok Sample.world0 in
  exists t,
    log w' = log Sample.world0 ++ t /\
    (forall params s, In (PagePdf params, s) t ->
       exists t1 t2 rect,
         t = t1 ++ (Evaluate, None) :: (PagePdf params, s) :: t2 /\
         Sample.oracle_ok (log Sample.world0 ++ t1) Evaluate = Normal rect /\
         params !! "width" =
           Some (VInt (Z.min (Qceiling (rect_width rect) + 1) (200 * 72))) /\
         params !! "height" =
           Some (VInt (Z.min (Qceiling (rect_height rect) + 1) (200 * 72)))) /\
    (forall pdf, r = Normal pdf -> exists params, In (PagePdf params, None) t).
Proof.
  split; [reflexivity |].
  apply (size_override_without_paginate Sample.env
           (SizedWebPDFExporter_init Sample.defaults_unpaginated None)
           Sample.html Sample.oracle_ok Sample.world0).
  reflexivity.
Defined.

(** C2, as stated, fails.  With a page format and [paginate] off the
    print parameters carry the paper size and a width and a height at the
    same time: the two ways of sizing are not exclusive. *)
Lemma sizing_modes_not_exclusive :
  let self := SizedWebPDFExporter_init Sample.defaults_unpaginated (Some "A3") in
  _page_format self = Some "A3" /\
  List.map (fun params : gmap string pyval =>
              (params !! "format", params !! "width", params !! "height"))
    (pdf_calls (log (snd (run_playwright Sample.env self Sample.html
                            Sample.oracle_ok Sample.world0))))
  = [(Some (VStr "A3"), Some (VInt 5001), Some (VInt 11))].
Proof. split; [reflexivity | vm_compute; reflexivity]. Qed.

(** C2, amended.  The dictionary given to [page.pdf] always asks for the
    background and always has the entry [format], whose value is the page
    format of the exporter ([None] when there is none).  It has a width
    and a height exactly when [paginate] is off, whatever the page format,
    and it has no other entry.  A render that returns has printed. *)
Theorem pdf_params_by_paginate env self html orc w :
  let (r, w') := run_playwright env self html orc w in
  exists t,
    log w' = log w ++ t /\
    (forall params s, In (PagePdf params, s) t ->
       params !! "print_background" = Some (VBool true) /\
       params !! "format" = Some (of_optional_str (_page_format self)) /\
       (is_Some (params !! "width") <-> paginate (super self) = false) /\
       (is_Some (params !! "height") <-> paginate (super self) = false) /\
       dom params =
         if paginate (super self)
         then ({["format"; "print_background"]} : gset string)
         else {["height"; "width"; "format"; "print_background"]}) /\
    (forall pdf, r = Normal pdf -> exists params, In (PagePdf params, None) t).
Proof.
  pose proof (run_playwright_emits env orc self html w) as (t & Hlog & Ht & _).
  pose proof (run_playwright_returned env self html orc w) as Hret.
  destruct (run_playwright env self html orc w) as [r w']; cbn [fst snd] in *.
  exists t. split; [exact Hlog |]. split.
  - intros params s Hin.
    rewrite List.Forall_forall in Ht. specialize (Ht _ Hin). cbn [fst] in Ht.
    inversion Ht as [ | | | | | | | | | | | | | params' Hparams | ]; subst.
    unfold pdf_params_of in Hparams.
    destruct (paginate (super self)).
    + subst params.
      destruct (initial_pdf_params_lookup self) as (Hb & Hf & Hw & Hh).
      rewrite Hb, Hf, Hw, Hh, initial_pdf_params_dom.
      split_and!; try reflexivity; split; try discriminate; intros []; discriminate.
    + destruct Hparams as (h & rect & _ & ->).
      destruct (update_size_lookup (measure_script rect) (initial_pdf_params self))
        as (Hb & Hf & Hw & Hh).
      destruct (initial_pdf_params_lookup self) as (Hb' & Hf' & _ & _).
      rewrite Hb, Hf, Hw, Hh, Hb', Hf', update_size_dom, initial_pdf_params_dom.
      split_and!; try reflexivity; split; eauto.
  - intros pdf Hpdf.
    destruct (Hret pdf Hpdf) as (f & data & params & _ & _ & _ & Hlog').
    rewrite Hlog in Hlog'. apply app_inv_head in Hlog'. subst t.
    exists params. apply (in_returned (PagePdf params)), render_script_pdf.
Qed.

(** C3.  Whatever the engine and the browser do during a render of a page
    that encodes, the temporary directory is afterwards what it was before
    the call.  When the temporary file was created, the page was written
    to it, and unlinking it is the last thing the call does, with success,
    before it returns or lets the exception out. *)
Theorem temporary_file_removed env self html data orc w :
  encode_utf8 html = Some data ->
  let (r, w') := run_playwright env self html orc w in
  files w' = files w /\
  exists t,
    log w' = log w ++ t /\
    forall f, In (NamedTemporaryFile ".html", None) t ->
              orc (log w) (NamedTemporaryFile ".html") = Normal f ->
      files w !! f = None /\
      In (TempWrite f data, None) t /\
      last t = Some (Unlink f, None).
Proof.
  destruct self as [[allow pag sandbox] fmt], w as [fs ch lg].
  cbn [log files]. intros Hdata.
  exec_enter; try congruence; exec; log_shape.
  all: rewrite ?delete_insert_eq, ?(delete_id _ _ Hfresh).
  all: split; [reflexivity |].
  all: eexists; split; [reflexivity |].
  all: intros f' Hin Hf'; in_cases Hin.
  all: injection Hf' as <-; injection Hdata as <-.
  all: split_and!; [assumption | cbn [In]; auto | reflexivity].
Qed.

Lemma temporary_file_removed_witness :
  encode_utf8 Sample.html = Some [60; 104; 49; 62]%Z /\
  let (r, w') := run_playwright Sample.env
                   (SizedWebPDFExporter_init Sample.defaults (Some "A4"))
                   Sample.html Sample.oracle_no_launch Sample.world0 in
  files w' = files Sample.world0 /\
  exists t,
    log w' = log Sample.world0 ++ t /\
    forall f, In (NamedTemporaryFile ".html", None) t ->
              Sample.oracle_no_launch (log Sample.world0)
                (NamedTemporaryFile ".html") = Normal f ->
      files Sample.world0 !! f = None /\
      In (TempWrite f [60; 104; 49; 62]%Z, None) t /\
      last t = Some (Unlink f, None).
Proof.
  split; [reflexivity |].
  apply (temporary_file_removed Sample.env
           (SizedWebPDFExporter_init Sample.defaults (Some "A4"))
           Sample.html [60; 104; 49; 62]%Z Sample.oracle_no_launch Sample.world0).
  reflexivity.
Defined.

(** The guarantee starts once the page is encoded: the file is created
    before, outside the [try], and a page that does not encode, here a
    lone surrogate, leaves it behind. *)
Example unencodable_page_leaves_file :
  let (r, w') := run_playwright Sample.env
                   (SizedWebPDFExporter_init Sample.defaults (Some "A4"))
                   [0xD800]%Z Sample.oracle_ok Sample.world0 in
  r = Raised UnicodeEncodeError /\
  files w' !! "/tmp/tmpq1w2e3.html" = Some [].
Proof. vm_compute. split; reflexivity. Qed.

(** C4, as stated, fails.  With the download allowed, the install command
    runs although a browser is already installed. *)
Lemma download_step_runs_with_browser_present :
  let self := set_allow_chromium_download true
                (SizedWebPDFExporter_init Sample.defaults (Some "A4")) in
  chromium Sample.world0 = true /\
  List.filter (fun ev : event => is_check_call (fst ev))
    (log (snd (run_playwright Sample.env self Sample.html
                 Sample.oracle_ok Sample.world0)))
  = [(CheckCall ["/usr/bin/python3"; "-m"; "playwright"; "install"; "chromium"],
      None)].
Proof. split; [reflexivity | vm_compute; reflexivity]. Qed.

(** C4, amended.  Whether the install command runs depends on
    [allow_chromium_download] alone, not on a browser being there: a
    render runs no other command and runs this one only when the download
    is allowed, and when it is allowed the command has returned before the
    engine is started.  Without a browser and without the permission,
    nothing is downloaded and the render fails; when the engine then stops
    normally, the failure is the [RuntimeError] that tells how to get a
    browser. *)
Theorem download_step_by_permission env self html orc w :
  let (r, w') := run_playwright env self html orc w in
  let install := CheckCall [sys_executable env; "-m"; "playwright"; "install";
                            "chromium"] in
  exists t,
    log w' = log w ++ t /\
    (forall cmd s, In (CheckCall cmd, s) t ->
       allow_chromium_download (super self) = true /\ CheckCall cmd = install) /\
    (allow_chromium_download (super self) = true ->
     forall s, In (PlaywrightStart, s) t -> In (install, None) t) /\
    (chromium w = false -> allow_chromium_download (super self) = false ->
     (exists e, r = Raised e) /\
     (In (PlaywrightStop, None) t ->
      r = Raised (RuntimeError msg_no_chromium
                    (PlaywrightError "Executable doesn't exist")))).
Proof.
  destruct self as [[allow pag sandbox] fmt], w as [fs ch lg].
  cbn [super allow_chromium_download log chromium].
  exec_enter; exec; log_shape.
  all: cbv zeta; eexists; split; [reflexivity |].
  all: split_and!.
  all: try (intros cmd s Hin; in_cases Hin; injection Hin as <- <-;
            split; reflexivity).
  all: try (intros Hallow s Hin; in_cases Hin; first [discriminate Hallow | cbn [In]; tauto]).
  all: intros Hch Hallow;
    first [ discriminate Hch | discriminate Hallow
          | split; [eexists; reflexivity | intros Hin; in_cases Hin; reflexivity] ].
Qed.

Lemma download_step_by_permission_witness :
  let self := SizedWebPDFExporter_init Sample.defaults (Some "A4") in
  chromium Sample.world_bare = false /\
  allow_chromium_download (super self) = false /\
  fst (run_playwright Sample.env self Sample.html Sample.oracle_ok
         Sample.world_bare)
  = Raised (RuntimeError msg_no_chromium
              (PlaywrightError "Executable doesn't exist")).
Proof.
  cbv zeta.
  pose proof (download_step_by_permission Sample.env
                (SizedWebPDFExporter_init Sample.defaults (Some "A4"))
                Sample.html Sample.oracle_ok Sample.world_bare) as H.
  destruct (run_playwright Sample.env
              (SizedWebPDFExporter_init Sample.defaults (Some "A4"))
              Sample.html Sample.oracle_ok Sample.world_bare) as [r w'] eqn:Hrun.
  destruct H as (t & Hlog & _ & _ & H).
  destruct (H eq_refl eq_refl) as [_ Hstop].
  split; [reflexivity |]. split; [reflexivity |].
  apply Hstop.
  assert (Ht : t = log w') by (rewrite Hlog; reflexivity).
  rewrite Ht.
  replace w' with (snd (run_playwright Sample.env
              (SizedWebPDFExporter_init Sample.defaults (Some "A4"))
              Sample.html Sample.oracle_ok Sample.world_bare))
    by (rewrite Hrun; reflexivity).
  vm_compute. tauto.
Defined.

(** C5.  When the launch of the browser raises an [Exception], it was the
    only launch of the render (nothing is tried again), the next call
    stops the engine, and after that the render only unlinks its temporary
    file.  When the engine stops normally, the render raises the
    [RuntimeError] whose message tells to allow the download or to install
    the browser by hand, with the launch failure as its cause. *)
Theorem launch_failure_stops_engine env self html orc w :
  let (r, w') := run_playwright env self html orc w in
  exists t,
    log w' = log w ++ t /\
    forall hi ht hh args exc,
      In (ChromiumLaunch hi ht hh args, Some exc) t ->
      is_Exception exc = true ->
      List.filter (fun ev : event => is_launch (fst ev)) t
        = [(ChromiumLaunch hi ht hh args, Some exc)] /\
      (exists t1 s f,
         t = t1 ++ [(ChromiumLaunch hi ht hh args, Some exc);
                    (PlaywrightStop, s); (Unlink f, None)] /\
         (s = None -> r = Raised (RuntimeError msg_no_chromium exc)) /\
         (forall e, s = Some e -> r = Raised e)) /\
      mentions "--allow-chromium-download" msg_no_chromium = true /\
      mentions "playwright install chromium" msg_no_chromium = true.
Proof.
  destruct self as [[allow pag sandbox] fmt], w as [fs ch lg].
  cbn [log].
  exec_enter; exec; log_shape.
  all: eexists; split; [reflexivity |].
  all: intros hi ht hh args exc Hin Hexc; in_cases Hin.
  all: injection Hin as <- <- <- <- <-; try congruence.
  all: split; [reflexivity |].
  all: split; [| split; reflexivity].
  all: lazymatch goal with
       | |- exists t1 s f, ?l = _ /\ _ =>
           let p := before_launch l in exists p
       end.
  all: eexists _, _; split; [reflexivity |].
  all: split; [ intros Hs; first [discriminate Hs | reflexivity]
              | intros e' [=]; subst; reflexivity ].
Qed.

Lemma launch_failure_stops_engine_witness :
  fst (run_playwright Sample.env
         (SizedWebPDFExporter_init Sample.defaults (Some "A4"))
         Sample.html Sample.oracle_no_launch Sample.world0)
  = Raised (RuntimeError msg_no_chromium (PlaywrightError "Target closed")).
Proof.
  pose proof (launch_failure_stops_engine Sample.env
                (SizedWebPDFExporter_init Sample.defaults (Some "A4"))
                Sample.html Sample.oracle_no_launch Sample.world0) as H.
  destruct (run_playwright Sample.env
              (SizedWebPDFExporter_init Sample.defaults (Some "A4"))
              Sample.html Sample.oracle_no_launch Sample.world0)
    as [r w'] eqn:Hrun.
  destruct H as (t & Hlog & H).
  assert (Ht : t = log w') by (rewrite Hlog; reflexivity).
  assert (Hw : w' = snd (run_playwright Sample.env
              (SizedWebPDFExporter_init Sample.defaults (Some "A4"))
              Sample.html Sample.oracle_no_launch Sample.world0))
    by (rewrite Hrun; reflexivity).
  destruct (H false false false [] (PlaywrightError "Target closed"))
    as (_ & (t1 & s & f & Ht1 & Hnone & _) & _).
  { rewrite Ht, Hw. vm_compute. tauto. }
  { reflexivity. }
  apply Hnone.
  assert (Hin : In (PlaywrightStop, s) t)
    by (rewrite Ht1, in_app_iff; cbn [In]; tauto).
  rewrite Ht, Hw in Hin. vm_compute in Hin.
  repeat (destruct Hin as [Hin | Hin]; [congruence |]). contradiction.
Defined.

(** C6: the script misses it.  One notebook, which exists and converts
    without a failure, in a directory that is not below the working
    directory: the PDF is written next to the notebook, then the message
    about it needs the path relative to the working directory,
    [relative_to] raises [ValueError], and the process ends with status 1
    after a run in which nothing went wrong. *)
Theorem exit_status_when_output_outside_cwd :
  let (r, w') := main Sample.env Sample.defaults Sample.parser None
                   Sample.oracle_ok Sample.world0 in
  Forall (fun ev : event => snd ev = None) (log w') /\
  written_paths (log w') = [["tmp"; "nb.pdf"]] /\
  (exists msg, r = Raised (ValueError msg)) /\
  exit_status r = 1%Z.
Proof.
  vm_compute. split_and!; [repeat constructor | reflexivity | | reflexivity].
  eexists. reflexivity.
Qed.

(** The same run from inside the directory of the notebook ends with
    status 0. *)
Example exit_status_when_output_below_cwd :
  let env := {| sys_executable := sys_executable Sample.env;
                sys_argv := sys_argv Sample.env;
                cwd := ["tmp"];
                resolve := resolve Sample.env |} in
  let (r, w') := main env Sample.defaults Sample.parser None
                   Sample.oracle_ok Sample.world0 in
  written_paths (log w') = [["tmp"; "nb.pdf"]] /\
  List.last (log w') (Print "", None) = (Print "Wrote nb.pdf", None) /\
  exit_status r = 0%Z.
Proof. vm_compute. split_and!; reflexivity. Qed.

(** The first half of C6 holds.  When the first notebook that is not
    there is reached, [main] raises [FileNotFoundError] and the process
    ends with status 1; for that notebook nothing was asked but whether it
    exists: no engine, no browser, no temporary file. *)
Lemma main_missing_notebook env defaults parser argv args first rest (orc : oracle) w :
  parser (match argv with
          | Some a => a
          | None => List.tl (sys_argv env)
          end) = Normal args ->
  ns_notebooks args = first :: rest ->
  orc (log w) (PathExists (resolve env first)) = Normal false ->
  main env defaults parser argv orc w =
  (Raised (FileNotFoundError
             ("Notebook not found: " ++ path_str (resolve env first))%string),
   record (PathExists (resolve env first), None) w) /\
  exit_status (fst (main env defaults parser argv orc w)) = 1%Z.
Proof.
  intros Hargs Hnbs Hmissing.
  assert (Hmain : main env defaults parser argv orc w =
    (Raised (FileNotFoundError
               ("Notebook not found: " ++ path_str (resolve env first))%string),
     record (PathExists (resolve env first), None) w)).
  { unfold main, parse_args, lift. rewrite bind_unfold, Hargs.
    rewrite bind_unfold, Hnbs. cbn [List.map for_each].
    rewrite bind_unfold, export_one_missing by exact Hmissing. reflexivity. }
  split; [exact Hmain |]. rewrite Hmain. reflexivity.
Qed.

(** A run on a notebook that is not there: one question to the file
    system, [FileNotFoundError], status 1. *)
Example missing_notebook_run :
  let (r, w') := main Sample.env Sample.defaults Sample.parser None
                   Sample.oracle_no_notebook Sample.world0 in
  r = Raised (FileNotFoundError "Notebook not found: /tmp/nb.ipynb") /\
  log w' = [(PathExists ["tmp"; "nb.ipynb"], None)] /\
  exit_status r = 1%Z.
Proof. vm_compute. split_and!; reflexivity. Qed.

(** C7.  Within one render the operations on the page follow the program
    order: print-media emulation, a wait of 100 ms, navigation to the
    temporary document until the network is idle, a second wait of 100 ms,
    the measurement (only without [paginate]), the print.  A run that fails
    stops somewhere along this sequence, a run that returns went through
    all of it.  An operation starts only once the one before it has
    answered: every page operation but the last one of the run returned
    normally. *)
Theorem page_operations_in_order env self html orc w :
  let (r, w') := run_playwright env self html orc w in
  exists t f params,
    log w' = log w ++ t /\
    List.map fst (page_events t) `prefix_of` page_script self f params /\
    Forall (fun ev => snd ev = None) (removelast (page_events t)) /\
    (page_events t <> [] ->
     orc (log w) (NamedTemporaryFile ".html") = Normal f) /\
    (forall pdf, r = Normal pdf ->
       page_events t = List.map (fun o => (o, None)) (page_script self f params)).
Proof.
  destruct self as [[allow pag sandbox] fmt], w as [fs ch lg].
  unfold page_script.
  cbn [super allow_chromium_download paginate disable_sandbox _page_format log].
  exec_enter; exec; log_shape.
  all: eexists _, _, _; split; [reflexivity |].
  all: cbn [page_events List.filter is_page_op fst snd List.map removelast app].
  all: split_and!;
    [ first [apply prefix_nil | eexists; reflexivity]
    | repeat constructor
    | first [ intros _; reflexivity
            | intros Hne; exfalso; apply Hne; reflexivity ]
    | intros ? [=]; subst; reflexivity ].
  Unshelve. all: first [exact "" | exact ∅].
Qed.

(** C8.  [main] converts the notebooks in the order of the command line
    and stops at the first failure.  The output files it has written by
    then are those of the first [k] notebooks, one file for each; when
    [main] returns, [k] is the number of notebooks.  The file of a
    notebook is named after its stem, with [.pdf], and lies in the
    resolved [--output-dir] when there is one, else in the directory of
    the notebook. *)
Theorem output_file_per_notebook env defaults parser argv args orc w :
  parser (match argv with
          | Some a => a
          | None => List.tl (sys_argv env)
          end) = Normal args ->
  let notebooks := List.map (resolve env) (ns_notebooks args) in
  let (r, w') := main env defaults parser argv orc w in
  exists t k,
    log w' = log w ++ t /\
    k <= List.length notebooks /\
    (r = Normal 0%Z -> k = List.length notebooks) /\
    written_paths t = List.map (output_path env args) (firstn k notebooks) /\
    forall nb_path,
      name (output_path env args nb_path) = (stem nb_path ++ ".pdf")%string /\
      parent (output_path env args nb_path) =
        match ns_output_dir args with
        | Some d => resolve env d
        | None => parent nb_path
        end.
Proof.
  intros Hargs notebooks. unfold main, parse_args, lift.
  rewrite bind_unfold, Hargs, bind_unfold. fold notebooks.
  pose proof (for_each_export_written env defaults args orc notebooks w) as Hloop.
  destruct (for_each notebooks (export_one env defaults args) orc w)
    as [[[] | e] w'].
  all: destruct Hloop as (t & k & Hlog & Hk & Hall & Hw).
  all: exists t, k; split_and!; auto; try discriminate.
  all: intros nb_path; split;
    [apply output_path_name | apply output_path_parent].
Qed.

Lemma output_file_per_notebook_witness :
  let args := {| ns_notebooks := ["/tmp/nb.ipynb"];
                 ns_page_format := "A3";
                 ns_output_dir := None;
                 ns_allow_chromium_download := false |} in
  Sample.parser (List.tl (sys_argv Sample.env)) = Normal args /\
  let (r, w') := main Sample.env Sample.defaults Sample.parser None
                   Sample.oracle_ok Sample.world0 in
  exists t k,
    log w' = log Sample.world0 ++ t /\
    k <= 1 /\
    (r = Normal 0%Z -> k = 1) /\
    written_paths t =
      List.map (output_path Sample.env args) (firstn k [["tmp"; "nb.ipynb"]]) /\
    forall nb_path,
      name (output_path Sample.env args nb_path) = (stem nb_path ++ ".pdf")%string /\
      parent (output_path Sample.env args nb_path) = parent nb_path.
Proof.
  split; [reflexivity |].
  apply (output_file_per_notebook Sample.env Sample.defaults Sample.parser None
           {| ns_notebooks := ["/tmp/nb.ipynb"];
              ns_page_format := "A3";
              ns_output_dir := None;
              ns_allow_chromium_download := false |}
           Sample.oracle_ok Sample.world0).
  reflexivity.
Defined.

(** C9.  The measurement runs only with [paginate] off.  Neither
    [convert_notebook] nor [main] touches [paginate], so with the trait as
    the base class sets it, on, they never measure: every [page.pdf] call
    they make carries the page format they were given as [format], no
    width and no height, and a conversion that returns has made that call.
    Through the command line the format is one of the five choices of
    [--page-format]. *)
Theorem cli_prints_named_format env defaults orc :
  paginate defaults = true ->
  (forall self html w,
     let (r, w') := run_playwright env self html orc w in
     forall t s, log w' = log w ++ t -> In (Evaluate, s) t ->
                 paginate (super self) = false) /\
  (forall nb_path out page_format allow w,
     let (r, w') := convert_notebook env defaults nb_path out page_format allow
                      orc w in
     exists t,
       log w' = log w ++ t /\
       (forall s, ~ In (Evaluate, s) t) /\
       (forall params s, In (PagePdf params, s) t ->
          params !! "format" = Some (VStr page_format) /\
          params !! "width" = None /\ params !! "height" = None) /\
       (r = Normal tt -> exists params, In (PagePdf params, None) t)) /\
  (forall parser argv w,
     (forall a ns, parser a = Normal ns ->
                   In (ns_page_format ns) page_format_choices) ->
     let (r, w') := main env defaults parser argv orc w in
     exists t,
       log w' = log w ++ t /\
       (forall s, ~ In (Evaluate, s) t) /\
       (forall params s, In (PagePdf params, s) t ->
          exists page_format,
            In page_format page_format_choices /\
            params !! "format" = Some (VStr page_format) /\
            params !! "width" = None /\ params !! "height" = None)).
Proof.
  intros Hpag. split_and!.
  - intros self html w.
    pose proof (run_playwright_emits env orc self html w) as (t & Hlog & Ht & _).
    destruct (run_playwright env self html orc w) as [r w']; cbn [fst snd] in *.
    intros t' s Hlog' Hin. rewrite Hlog in Hlog'. apply app_inv_head in Hlog'.
    subst t'. rewrite List.Forall_forall in Ht. specialize (Ht _ Hin).
    cbn [fst] in Ht. inversion Ht. assumption.
  - intros nb_path out page_format allow w.
    pose proof (convert_notebook_emits env orc defaults nb_path out page_format
                  allow w) as (t & Hlog & Ht & _).
    pose proof (convert_notebook_returned env defaults nb_path out page_format
                  allow orc w) as Hret.
    destruct (convert_notebook env defaults nb_path out page_format allow orc w)
      as [r w']; cbn [fst snd] in *.
    rewrite List.Forall_forall in Ht.
    exists t. split_and!; [exact Hlog | | |].
    + intros s Hin. specialize (Ht _ Hin).
      exact (convert_op_evaluate _ _ _ _ _ _ Hpag Ht).
    + intros params s Hin. specialize (Ht _ Hin). cbn [fst] in Ht.
      rewrite (convert_op_pdf _ _ _ _ _ _ _ Hpag Ht).
      apply exporter_for_params.
    + intros Hr.
      destruct (Hret Hr) as (nb & f & data & params & pdf & _ & Hlog').
      rewrite Hlog in Hlog'. apply app_inv_head in Hlog'. subst t.
      exists params. cbn [In]. do 2 right. rewrite in_app_iff. left.
      apply (in_returned (PagePdf params)), render_script_pdf.
  - intros parser argv w Hchoices.
    pose proof (main_emits env orc defaults parser argv w) as (t & Hlog & Ht & _).
    destruct (main env defaults parser argv orc w) as [r w']; cbn [fst snd] in *.
    exists t. split_and!; [exact Hlog | |].
    + intros s Hin.
      destruct (main_event_convert _ _ _ _ _ _ _ _ Ht Hin)
        as (args & nb_path & _ & Hop); [auto |].
      exact (convert_op_evaluate _ _ _ _ _ _ Hpag Hop).
    + intros params s Hin.
      destruct (main_event_convert _ _ _ _ _ _ _ _ Ht Hin)
        as (args & nb_path & Hargs & Hop); [eauto |].
      exists (ns_page_format args). split; [eapply Hchoices; exact Hargs |].
      rewrite (convert_op_pdf _ _ _ _ _ _ _ Hpag Hop).
      apply exporter_for_params.
Qed.

Lemma cli_prints_named_format_witness :
  paginate Sample.defaults = true /\
  (forall a ns, Sample.parser a = Normal ns ->
                In (ns_page_format ns) page_format_choices) /\
  let (r, w') := main Sample.env Sample.defaults Sample.parser None
                   Sample.oracle_ok Sample.world0 in
  exists t,
    log w' = log Sample.world0 ++ t /\
    (forall s, ~ In (Evaluate, s) t) /\
    (forall params s, In (PagePdf params, s) t ->
       exists page_format,
         In page_format page_format_choices /\
         params !! "format" = Some (VStr page_format) /\
         params !! "width" = None /\ params !! "height" = None).
Proof.
  assert (Hparser : forall a ns, Sample.parser a = Normal ns ->
                                 In (ns_page_format ns) page_format_choices).
  { intros [| x a] ns [=]; subst. cbn. auto. }
  split; [reflexivity |]. split; [exact Hparser |].
  apply (cli_prints_named_format Sample.env Sample.defaults Sample.oracle_ok
           eq_refl).
  exact Hparser.
Defined.

(** C10.  [convert_notebook] sets [disable_sandbox] on the exporter it
    builds, whatever its arguments and whatever the base class had there.
    Every launch of the browser in a conversion, and so in a run of
    [main], is given exactly the flag [--no-sandbox]; a conversion that
    returns has launched the browser that way. *)
Theorem sandbox_always_disabled env defaults orc :
  (forall page_format allow,
     disable_sandbox (super (exporter_for defaults page_format allow)) = true) /\
  (forall nb_path out page_format allow w,
     let (r, w') := convert_notebook env defaults nb_path out page_format allow
                      orc w in
     exists t,
       log w' = log w ++ t /\
       (forall hi ht hh args s,
          In (ChromiumLaunch hi ht hh args, s) t -> args = ["--no-sandbox"]) /\
       (r = Normal tt ->
        In (ChromiumLaunch false false false ["--no-sandbox"], None) t)) /\
  (forall parser argv w,
     let (r, w') := main env defaults parser argv orc w in
     exists t,
       log w' = log w ++ t /\
       forall hi ht hh args s,
         In (ChromiumLaunch hi ht hh args, s) t -> args = ["--no-sandbox"]).
Proof.
  split_and!.
  - reflexivity.
  - intros nb_path out page_format allow w.
    pose proof (convert_notebook_emits env orc defaults nb_path out page_format
                  allow w) as (t & Hlog & Ht & _).
    pose proof (convert_notebook_returned env defaults nb_path out page_format
                  allow orc w) as Hret.
    destruct (convert_notebook env defaults nb_path out page_format allow orc w)
      as [r w']; cbn [fst snd] in *.
    rewrite List.Forall_forall in Ht.
    exists t. split_and!; [exact Hlog | |].
    + intros hi ht hh args s Hin. specialize (Ht _ Hin). cbn [fst] in Ht.
      exact (convert_op_launch _ _ _ _ _ _ _ _ _ _ Ht).
    + intros Hr.
      destruct (Hret Hr) as (nb & f & data & params & pdf & _ & Hlog').
      rewrite Hlog in Hlog'. apply app_inv_head in Hlog'. subst t.
      cbn [In]. do 2 right. rewrite in_app_iff. left.
      apply (in_returned
               (ChromiumLaunch false false false ["--no-sandbox"])
               (render_script env (exporter_for defaults page_format allow)
                  f data params)).
      apply (render_script_launch env (exporter_for defaults page_format allow)).
  - intros parser argv w.
    pose proof (main_emits env orc defaults parser argv w) as (t & Hlog & Ht & _).
    destruct (main env defaults parser argv orc w) as [r w']; cbn [fst snd] in *.
    exists t. split; [exact Hlog |].
    intros hi ht hh args s Hin.
    destruct (main_event_convert _ _ _ _ _ _ _ _ Ht Hin)
      as (a & nb_path & _ & Hop); [left; reflexivity |].
    exact (convert_op_launch _ _ _ _ _ _ _ _ _ _ Hop).
Qed.

(** * Further properties of [run_playwright] *)

(** X1.  When the import of the engine fails, the render does nothing
    more than unlink its temporary file: the log of the call is the
    creation of the file, the write, the import and the unlink.  A
    [ModuleNotFoundError] comes out as the [RuntimeError] that tells to
    install [nbconvert[webpdf]], with the import failure as its cause; any
    other exception of the import comes out as it is. *)
Theorem engine_import_failure env self html orc w :
  let (r, w') := run_playwright env self html orc w in
  exists t,
    log w' = log w ++ t /\
    forall exc, In (ImportPlaywright, Some exc) t ->
      r = Raised (if is_ModuleNotFoundError exc
                  then RuntimeError msg_playwright_missing exc
                  else exc) /\
      exists f data,
        t = [(NamedTemporaryFile ".html", None); (TempWrite f data, None);
             (ImportPlaywright, Some exc); (Unlink f, None)].
Proof.
  destruct self as [[allow pag sandbox] fmt], w as [fs ch lg].
  cbn [log].
  exec_enter; exec; log_shape.
  all: eexists; split; [reflexivity |].
  all: intros exc Hin; in_cases Hin.
  all: injection Hin as <-.
  all: match goal with H : is_ModuleNotFoundError _ = _ |- _ => rewrite H end.
  all: split; [reflexivity | eexists _, _; reflexivity].
Qed.

Lemma engine_import_failure_witness :
  fst (run_playwright Sample.env Sample.exporter Sample.html
         Sample.oracle_no_engine Sample.world0)
  = Raised (RuntimeError msg_playwright_missing (ModuleNotFoundError "playwright")).
Proof.
  pose proof (engine_import_failure Sample.env Sample.exporter Sample.html
                Sample.oracle_no_engine Sample.world0) as H.
  destruct (run_playwright Sample.env Sample.exporter Sample.html
              Sample.oracle_no_engine Sample.world0) as [r w'] eqn:Hrun.
  destruct H as (t & Hlog & H).
  assert (Ht : t = log w') by (rewrite Hlog; reflexivity).
  assert (Hw : w' = snd (run_playwright Sample.env Sample.exporter Sample.html
                           Sample.oracle_no_engine Sample.world0))
    by (rewrite Hrun; reflexivity).
  destruct (H (ModuleNotFoundError "playwright")) as [Hr _].
  { rewrite Ht, Hw. vm_compute. tauto. }
  exact Hr.
Defined.

(** X2.  A launch that is interrupted, that is, raises something that is
    not an [Exception], is not handled: the interruption comes out of the
    render as it is and the engine is not stopped; the temporary file is
    still unlinked. *)
Theorem launch_interrupt_not_handled env self html orc w :
  let (r, w') := run_playwright env self html orc w in
  exists t,
    log w' = log w ++ t /\
    forall hi ht hh args exc,
      In (ChromiumLaunch hi ht hh args, Some exc) t ->
      is_Exception exc = false ->
      r = Raised exc /\
      occurrences is_stop t = 0 /\
      exists f, last t = Some (Unlink f, None).
Proof.
  destruct self as [[allow pag sandbox] fmt], w as [fs ch lg].
  cbn [log].
  exec_enter; exec; log_shape.
  all: eexists; split; [reflexivity |].
  all: intros hi ht hh args exc Hin Hexc; in_cases Hin.
  all: injection Hin as <- <- <- <- <-; try congruence; try discriminate Hexc.
  all: split_and!; [reflexivity | reflexivity | eexists; reflexivity].
Qed.

Lemma launch_interrupt_not_handled_witness :
  fst (run_playwright Sample.env Sample.exporter Sample.html
         Sample.oracle_interrupted_launch Sample.world0)
  = Raised KeyboardInterrupt.
Proof.
  pose proof (launch_interrupt_not_handled Sample.env Sample.exporter Sample.html
                Sample.oracle_interrupted_launch Sample.world0) as H.
  destruct (run_playwright Sample.env Sample.exporter Sample.html
              Sample.oracle_interrupted_launch Sample.world0) as [r w'] eqn:Hrun.
  destruct H as (t & Hlog & H).
  assert (Ht : t = log w') by (rewrite Hlog; reflexivity).
  assert (Hw : w' = snd (run_playwright Sample.env Sample.exporter Sample.html
                           Sample.oracle_interrupted_launch Sample.world0))
    by (rewrite Hrun; reflexivity).
  destruct (H false false false ["--no-sandbox"] KeyboardInterrupt) as [Hr _].
  { rewrite Ht, Hw. vm_compute. tauto. }
  { reflexivity. }
  exact Hr.
Defined.

(** X3.  Once the browser runs, nothing guards the page operations: when
    opening the page or any operation on it raises, the exception comes
    out of the render as it is, and neither is the browser closed nor the
    engine stopped.  Only the temporary file is unlinked. *)
Theorem page_failure_leaves_browser env self html orc w :
  let (r, w') := run_playwright env self html orc w in
  exists t,
    log w' = log w ++ t /\
    forall o exc,
      In (o, Some exc) t ->
      o = NewPage \/ is_page_op o = true ->
      r = Raised exc /\
      occurrences is_launch t = 1 /\
      (forall s, ~ In (BrowserClose, s) t) /\
      occurrences is_stop t = 0 /\
      exists f, last t = Some (Unlink f, None).
Proof.
  destruct self as [[allow pag sandbox] fmt], w as [fs ch lg].
  cbn [log].
  exec_enter; exec; log_shape.
  all: eexists; split; [reflexivity |].
  all: intros o exc Hin Hkind; in_cases Hin.
  all: injection Hin as <- <-.
  all: try (destruct Hkind as [Hkind | Hkind]; discriminate Hkind).
  all: split_and!;
    [ reflexivity | reflexivity
    | intros s Hclose; in_cases Hclose
    | reflexivity | eexists; reflexivity ].
Qed.

Lemma page_failure_leaves_browser_witness :
  fst (run_playwright Sample.env Sample.exporter Sample.html
         Sample.oracle_goto_timeout Sample.world0)
  = Raised (PlaywrightTimeoutError "Timeout 30000ms exceeded").
Proof.
  pose proof (page_failure_leaves_browser Sample.env Sample.exporter Sample.html
                Sample.oracle_goto_timeout Sample.world0) as H.
  destruct (run_playwright Sample.env Sample.exporter Sample.html
              Sample.oracle_goto_timeout Sample.world0) as [r w'] eqn:Hrun.
  destruct H as (t & Hlog & H).
  assert (Ht : t = log w') by (rewrite Hlog; reflexivity).
  assert (Hw : w' = snd (run_playwright Sample.env Sample.exporter Sample.html
                           Sample.oracle_goto_timeout Sample.world0))
    by (rewrite Hrun; reflexivity).
  destruct (H (Goto "file:///tmp/tmpq1w2e3.html" "networkidle")
              (PlaywrightTimeoutError "Timeout 30000ms exceeded")) as [Hr _].
  { rewrite Ht, Hw. vm_compute. tauto. }
  { right. reflexivity. }
  exact Hr.
Defined.

(** X4.  When the install command fails, its exception comes out of the
    render as it is; the engine is never started and no browser is
    launched.  The temporary file is unlinked. *)
Theorem download_failure_stops_render env self html orc w :
  let (r, w') := run_playwright env self html orc w in
  exists t,
    log w' = log w ++ t /\
    forall cmd exc,
      In (CheckCall cmd, Some exc) t ->
      r = Raised exc /\
      occurrences is_start t = 0 /\
      occurrences is_launch t = 0 /\
      exists f, last t = Some (Unlink f, None).
Proof.
  destruct self as [[allow pag sandbox] fmt], w as [fs ch lg].
  cbn [log].
  exec_enter; exec; log_shape.
  all: eexists; split; [reflexivity |].
  all: intros cmd exc Hin; in_cases Hin.
  all: injection Hin as <- <-.
  all: split_and!; [reflexivity | reflexivity | reflexivity | eexists; reflexivity].
Qed.

Lemma download_failure_stops_render_witness :
  fst (run_playwright Sample.env Sample.exporter_downloading Sample.html
         Sample.oracle_install_fails Sample.world0)
  = Raised (CalledProcessError 1).
Proof.
  pose proof (download_failure_stops_render Sample.env Sample.exporter_downloading
                Sample.html Sample.oracle_install_fails Sample.world0) as H.
  destruct (run_playwright Sample.env Sample.exporter_downloading Sample.html
              Sample.oracle_install_fails Sample.world0) as [r w'] eqn:Hrun.
  destruct H as (t & Hlog & H).
  assert (Ht : t = log w') by (rewrite Hlog; reflexivity).
  assert (Hw : w' = snd (run_playwright Sample.env Sample.exporter_downloading
                           Sample.html Sample.oracle_install_fails Sample.world0))
    by (rewrite Hrun; reflexivity).
  destruct (H ["/usr/bin/python3"; "-m"; "playwright"; "install"; "chromium"]
              (CalledProcessError 1)) as [Hr _].
  { rewrite Ht, Hw. vm_compute. tauto. }
  exact Hr.
Defined.

(** X5.  Nothing is tried twice.  In every render, however it ends, the
    temporary file is created at most once, the install command runs at
    most once, the engine is started, the browser launched, the page
    loaded and the print asked for at most once each, and the engine is
    stopped at most once. *)
Theorem render_attempts_once env self html orc w :
  let (r, w') := run_playwright env self html orc w in
  exists t,
    log w' = log w ++ t /\
    occurrences is_temp t <= 1 /\
    occurrences is_check_call t <= 1 /\
    occurrences is_start t <= 1 /\
    occurrences is_launch t <= 1 /\
    occurrences is_goto t <= 1 /\
    occurrences is_pdf t <= 1 /\
    occurrences is_stop t <= 1.
Proof.
  destruct self as [[allow pag sandbox] fmt], w as [fs ch lg].
  cbn [log].
  exec_enter; exec; log_shape.
  all: eexists; split; [reflexivity |].
  all: cbv [occurrences List.filter List.length fst is_temp is_check_call
            is_start is_launch is_goto is_pdf is_stop].
  all: repeat split; lia.
Qed.

(** X6.  Every launch of the browser hands the three signals to the host
    process ([handle_sigint], [handle_sigterm] and [handle_sighup] are all
    [False]) and is given the flag [--no-sandbox] exactly when the
    exporter has [disable_sandbox] set, and no other flag.  A render that
    returns has launched the browser. *)
Theorem launch_options env self html orc w :
  let (r, w') := run_playwright env self html orc w in
  exists t,
    log w' = log w ++ t /\
    (forall hi ht hh args s,
       In (ChromiumLaunch hi ht hh args, s) t ->
       hi = false /\ ht = false /\ hh = false /\
       args = if disable_sandbox (super self) then ["--no-sandbox"] else []) /\
    (forall pdf, r = Normal pdf -> occurrences is_launch t = 1).
Proof.
  pose proof (run_playwright_emits env orc self html w) as (t & Hlog & Ht & _).
  pose proof (run_playwright_returned env self html orc w) as Hret.
  destruct (run_playwright env self html orc w) as [r w']; cbn [fst snd] in *.
  exists t. split; [exact Hlog |]. split.
  - intros hi ht hh args s Hin.
    rewrite List.Forall_forall in Ht. specialize (Ht _ Hin). cbn [fst] in Ht.
    inversion Ht; subst. auto.
  - intros pdf Hpdf.
    destruct (Hret pdf Hpdf) as (f & data & params & _ & _ & _ & Hlog').
    rewrite Hlog in Hlog'. apply app_inv_head in Hlog'. subst t.
    unfold render_script, page_script.
    destruct (allow_chromium_download (super self)), (paginate (super self));
      reflexivity.
Qed.

(** X7.  No print is asked for a page larger than 200 * 72 in either
    direction: a width or a height among the print parameters is at most
    14400.  It comes from a rectangle that the browser reported, and
    unless it is the bound itself the side of that rectangle fits in it
    with the pixel of margin to spare. *)
Theorem print_size_bounded env self html orc w :
  let (r, w') := run_playwright env self html orc w in
  exists t,
    log w' = log w ++ t /\
    forall params s, In (PagePdf params, s) t ->
      (forall n, params !! "width" = Some (VInt n) ->
         (n <= 14400)%Z /\
         exists h rect,
           orc h Evaluate = Normal rect /\
           ((n < 14400)%Z -> (rect_width rect <= inject_Z (n - 1))%Q)) /\
      (forall n, params !! "height" = Some (VInt n) ->
         (n <= 14400)%Z /\
         exists h rect,
           orc h Evaluate = Normal rect /\
           ((n < 14400)%Z -> (rect_height rect <= inject_Z (n - 1))%Q)).
Proof.
  pose proof (run_playwright_emits env orc self html w) as (t & Hlog & Ht & _).
  destruct (run_playwright env self html orc w) as [r w']; cbn [fst snd] in *.
  exists t. split; [exact Hlog |].
  intros params s Hin.
  rewrite List.Forall_forall in Ht. specialize (Ht _ Hin). cbn [fst] in Ht.
  inversion Ht as [ | | | | | | | | | | | | | params' Hparams | ]; subst.
  unfold pdf_params_of in Hparams.
  destruct (paginate (super self)).
  - subst params.
    destruct (initial_pdf_params_lookup self) as (_ & _ & Hw & Hh).
    rewrite Hw, Hh. split; intros n [=].
  - destruct Hparams as (h & rect & Horc & ->).
    destruct (update_size_lookup (measure_script rect) (initial_pdf_params self))
      as (_ & _ & Hw & Hh).
    rewrite Hw, Hh. cbn [measure_script width height].
    split; intros n [= <-]; (split; [lia |]); exists h, rect;
      (split; [exact Horc |]); intros Hlt.
    + replace (Z.min (Qceiling (rect_width rect) + 1) (200 * 72) - 1)%Z
        with (Qceiling (rect_width rect)) by lia.
      apply Qle_ceiling.
    + replace (Z.min (Qceiling (rect_height rect) + 1) (200 * 72) - 1)%Z
        with (Qceiling (rect_height rect)) by lia.
      apply Qle_ceiling.
Qed.

(** X8.  A render that returns has shut everything down, in this order:
    the browser is closed, the engine is stopped, the temporary file is
    unlinked, each with success, and these are its last three calls. *)
Theorem returned_render_shuts_down env self html orc w :
  let (r, w') := run_playwright env self html orc w in
  forall pdf, r = Normal pdf ->
    exists t0 f,
      orc (log w) (NamedTemporaryFile ".html") = Normal f /\
      log w' = log w ++ t0 ++ [(BrowserClose, None); (PlaywrightStop, None);
                               (Unlink f, None)] /\
      occurrences is_stop t0 = 0.
Proof.
  pose proof (run_playwright_returned env self html orc w) as Hret.
  destruct (run_playwright env self html orc w) as [r w'].
  intros pdf Hpdf.
  destruct (Hret pdf Hpdf) as (f & data & params & Hf & _ & _ & Hlog).
  exists (List.map returned
            ([NamedTemporaryFile ".html"; TempWrite f data; ImportPlaywright]
             ++ (if allow_chromium_download (super self)
                 then [CheckCall [sys_executable env; "-m"; "playwright";
                                  "install"; "chromium"]]
                 else [])
             ++ [PlaywrightStart;
                 ChromiumLaunch false false false
                   (if disable_sandbox (super self) then ["--no-sandbox"] else []);
                 NewPage]
             ++ page_script self f params)), f.
  split; [exact Hf |]. split.
  - rewrite Hlog. unfold render_script.
    rewrite !List.map_app, <- !app_assoc. reflexivity.
  - unfold page_script.
    destruct (allow_chromium_download (super self)), (paginate (super self));
      reflexivity.
Qed.

(** ** The page that does not encode *)

Lemma encode_utf8_surrogate (html : pystr) (c : Z) :
  In c html -> (0xD800 <= c <= 0xDFFF)%Z -> encode_utf8 html = None.
Proof.
  intros Hin Hc. induction html as [| x rest IH]; [contradiction |].
  cbn [encode_utf8]. destruct Hin as [-> | Hin].
  - assert (Hx : encode_code_point c = None).
    { unfold encode_code_point.
      rewrite (proj2 (Z.ltb_ge c 0)) by lia.
      rewrite (proj2 (Z.ltb_ge c 128)) by lia.
      rewrite (proj2 (Z.ltb_ge c 2048)) by lia.
      rewrite (proj2 (Z.leb_le 55296 c)) by lia.
      rewrite (proj2 (Z.leb_le c 57343)) by lia. reflexivity. }
    rewrite Hx. reflexivity.
  - rewrite (IH Hin). destruct (encode_code_point x); reflexivity.
Qed.

(** X9.  The page is written to the temporary file before the [try]
    whose [finally] unlinks it.  A page with a lone surrogate does not
    encode: the render raises [UnicodeEncodeError] right after creating
    the file, calls nothing else, and the empty file stays in the
    temporary directory. *)
Theorem lone_surrogate_keeps_file env self html (orc : oracle) w f c :
  In c html -> (0xD800 <= c <= 0xDFFF)%Z ->
  orc (log w) (NamedTemporaryFile ".html") = Normal f ->
  files w !! f = None ->
  run_playwright env self html orc w =
  (Raised UnicodeEncodeError,
   {| files := <[f := []]> (files w);
      chromium := chromium w;
      log := log w ++ [(NamedTemporaryFile ".html", None)] |}).
Proof.
  intros Hin Hc Horc Hfresh. unfold run_playwright.
  rewrite bind_unfold, call_temp, Horc, Hfresh. exec_simpl.
  rewrite bind_unfold. unfold lift.
  rewrite (encode_utf8_surrogate html c Hin Hc). reflexivity.
Qed.

Lemma lone_surrogate_keeps_file_witness :
  run_playwright Sample.env
    (SizedWebPDFExporter_init Sample.defaults (Some "A4"))
    [60; 0xD83D; 62]%Z Sample.oracle_ok Sample.world0 =
  (Raised UnicodeEncodeError,
   {| files := <["/tmp/tmpq1w2e3.html" := []]> (files Sample.world0);
      chromium := chromium Sample.world0;
      log := log Sample.world0 ++ [(NamedTemporaryFile ".html", None)] |}).
Proof.
  apply (lone_surrogate_keeps_file Sample.env
           (SizedWebPDFExporter_init Sample.defaults (Some "A4"))
           [60; 0xD83D; 62]%Z Sample.oracle_ok Sample.world0
           "/tmp/tmpq1w2e3.html" 0xD83D%Z).
  - cbn [In]. auto.
  - lia.
  - reflexivity.
  - reflexivity.
Defined.

(** ** What is written *)

Lemma run_playwright_pdf_answer env self html orc w :
  let (r, w') := run_playwright env self html orc w in
  forall pdf, r = Normal pdf ->
    exists h params, orc h (PagePdf params) = Normal pdf.
Proof.
  destruct self as [[allow pag sandbox] fmt], w as [fs ch lg].
  exec_enter; exec.
  all: intros pdf [=]; subst.
  all: eexists _, _; eassumption.
Qed.

(** X10.  The bytes that a conversion writes are the bytes that the
    browser printed: a conversion that returns ends with a successful
    [write_bytes] on its output path, of a value that [page.pdf] answered
    in this run, and a render that returns returns such a value. *)
Theorem written_bytes_are_printed env defaults nb_path out page_format allow orc w :
  (forall self html,
     let (r, w') := run_playwright env self html orc w in
     forall pdf, r = Normal pdf ->
       exists h params, orc h (PagePdf params) = Normal pdf) /\
  let (r, w') := convert_notebook env defaults nb_path out page_format allow orc w in
  r = Normal tt ->
  exists t h params pdf,
    log w' = log w ++ t /\
    orc h (PagePdf params) = Normal pdf /\
    last t = Some (WriteBytes out pdf, None).
Proof.
  split; [intros self html; apply run_playwright_pdf_answer |].
  unfold convert_notebook, from_notebook_node.
  rewrite bind_unfold, call_plain by reflexivity.
  destruct (orc (log w) (ReadNotebook nb_path)) as [nb | e]; [| discriminate].
  rewrite !bind_unfold, call_plain by reflexivity. cbn [record log].
  destruct (orc _ (ExportHtml nb)) as [html | e]; [| discriminate].
  match goal with
  | |- context [run_playwright ?env ?self ?html ?orc ?w1] =>
      pose proof (run_playwright_pdf_answer env self html orc w1) as Hans;
      pose proof (run_playwright_emits env orc self html w1)
        as (t1 & Hlog1 & _ & _);
      destruct (run_playwright env self html orc w1) as [[pdf | e] w2]
  end; [| discriminate].
  destruct (Hans pdf eq_refl) as (h & params & Hpdf).
  rewrite call_plain by reflexivity.
  destruct (orc (log w2) (WriteBytes out pdf)) as [[] | e]; [| discriminate].
  intros _. cbn [fst snd record log] in *.
  eexists _, h, params, pdf. rewrite Hlog1, <- !app_assoc.
  split; [reflexivity |]. split; [exact Hpdf |].
  rewrite !app_assoc. apply last_snoc.
Qed.

(** ** A run of [main] that returns *)

Lemma for_each_returned {A} (l : list A) (body : A -> M unit) (P : A -> Prop) orc :
  (forall x w, fst (body x orc w) = Normal tt -> P x) ->
  forall w, fst (for_each l body orc w) = Normal tt -> Forall P l.
Proof.
  intros Hbody. induction l as [| x rest IH]; intros w Hret; [constructor |].
  cbn [for_each] in Hret. rewrite bind_unfold in Hret.
  specialize (Hbody x w).
  destruct (body x orc w) as [[[] | e] w1]; cbn [fst] in *; [| discriminate].
  constructor; [auto | eapply IH; exact Hret].
Qed.

Lemma export_one_returned env defaults args nb_path orc w :
  fst (export_one env defaults args nb_path orc w) = Normal tt ->
  is_prefix_of (cwd env) (output_path env args nb_path) = true.
Proof.
  unfold export_one.
  fold (target_dir env args nb_path). fold (output_path env args nb_path).
  rewrite bind_unfold, call_plain by reflexivity.
  destruct (orc (log w) (PathExists nb_path)) as [[|] | e]; cbn [negb];
    [| discriminate | discriminate].
  rewrite bind_unfold, call_plain by reflexivity.
  destruct (orc _ (Mkdir _ _ _)) as [[] | e]; [| discriminate].
  rewrite bind_unfold.
  destruct (convert_notebook _ _ _ _ _ _ _ _) as [[[] | e] w2]; [| discriminate].
  rewrite bind_unfold. unfold lift, relative_to.
  destruct (is_prefix_of (cwd env) (output_path env args nb_path));
    [reflexivity | discriminate].
Qed.

(** X11.  [main] returns nothing but 0, and it returns only when the
    output file of every notebook lies below the working directory: the
    message after each conversion needs the path relative to it. *)
Theorem main_returns_below_cwd env defaults parser argv args orc w :
  parser (match argv with
          | Some a => a
          | None => List.tl (sys_argv env)
          end) = Normal args ->
  forall code,
    fst (main env defaults parser argv orc w) = Normal code ->
    code = 0%Z /\
    Forall (fun nb_path =>
              is_prefix_of (cwd env) (output_path env args nb_path) = true)
           (List.map (resolve env) (ns_notebooks args)).
Proof.
  intros Hargs code. unfold main, parse_args, lift.
  rewrite bind_unfold, Hargs, bind_unfold.
  pose proof (for_each_returned (List.map (resolve env) (ns_notebooks args))
                (export_one env defaults args)
                (fun nb_path =>
                   is_prefix_of (cwd env) (output_path env args nb_path) = true)
                orc
                (fun x w0 => export_one_returned env defaults args x orc w0) w)
    as Hloop.
  destruct (for_each _ _ orc w) as [[[] | e] w1]; cbn [fst] in *;
    [| discriminate].
  intros [= <-]. split; [reflexivity | apply Hloop; reflexivity].
Qed.

Lemma main_returns_below_cwd_witness :
  Sample.parser (List.tl (sys_argv Sample.env_tmp)) =
    Normal {| ns_notebooks := ["/tmp/nb.ipynb"];
              ns_page_format := "A3";
              ns_output_dir := None;
              ns_allow_chromium_download := false |} /\
  fst (main Sample.env_tmp Sample.defaults Sample.parser None
         Sample.oracle_ok Sample.world0) = Normal 0%Z /\
  Forall (fun nb_path =>
            is_prefix_of ["tmp"]
              (output_path Sample.env_tmp
                 {| ns_notebooks := ["/tmp/nb.ipynb"];
                    ns_page_format := "A3";
                    ns_output_dir := None;
                    ns_allow_chromium_download := false |} nb_path) = true)
         [["tmp"; "nb.ipynb"]].
Proof.
  assert (Hrun : fst (main Sample.env_tmp Sample.defaults Sample.parser None
                        Sample.oracle_ok Sample.world0) = Normal 0%Z)
    by (vm_compute; reflexivity).
  split; [reflexivity |]. split; [exact Hrun |].
  apply (main_returns_below_cwd Sample.env_tmp Sample.defaults Sample.parser
           None _ Sample.oracle_ok Sample.world0 eq_refl 0%Z Hrun).
Defined.

(** ** Names of output files *)

Lemma rfind_dot_ipynb (s : string) :
  rfind_dot (s ++ ".ipynb") = Some (String.length s).
Proof.
  induction s as [| c s IH]; [reflexivity |].
  change (String c s ++ ".ipynb")%string with (String c (s ++ ".ipynb")).
  cbn [rfind_dot String.length]. rewrite IH. reflexivity.
Qed.

Lemma string_length_app (s t : string) :
  String.length (s ++ t) = String.length s + String.length t.
Proof.
  induction s as [| c s IH]; [reflexivity |].
  change (String c s ++ t)%string with (String c (s ++ t)).
  cbn [String.length]. rewrite IH. reflexivity.
Qed.

Lemma substring_prefix (s t : string) :
  String.substring 0 (String.length s) (s ++ t) = s.
Proof.
  induction s as [| c s IH].
  - change ("" ++ t)%string with t. destruct t; reflexivity.
  - change (String c s ++ t)%string with (String c (s ++ t)).
    cbn [String.length String.substring]. rewrite IH. reflexivity.
Qed.

(** X12.  The PDF of a notebook [base.ipynb] is called [base.pdf],
    whatever dots [base] has inside, and lies where [main] puts the
    output: in the resolved [--output-dir], else beside the notebook. *)
Theorem ipynb_gives_pdf env args (dir : Path) (base : string) :
  base <> "" ->
  output_path env args (dir ++ [(base ++ ".ipynb")%string]) =
  match ns_output_dir args with
  | Some d => resolve env d
  | None => dir
  end ++ [(base ++ ".pdf")%string].
Proof.
  intros Hbase. unfold output_path, joinpath, target_dir, parent, stem, name.
  rewrite last_last, removelast_last. f_equal. f_equal. f_equal.
  unfold stem_of_name. rewrite rfind_dot_ipynb, string_length_app.
  assert (H1 : Nat.ltb 0 (String.length base) = true).
  { apply Nat.ltb_lt. destruct base; [congruence | cbn; lia]. }
  assert (H2 : Nat.ltb (String.length base)
                 (String.length base + String.length ".ipynb" - 1) = true).
  { apply Nat.ltb_lt. cbn. lia. }
  rewrite H1, H2. cbn [andb]. apply substring_prefix.
Qed.

Lemma ipynb_gives_pdf_witness :
  output_path Sample.env
    {| ns_notebooks := ["/tmp/v1.2.ipynb"];
       ns_page_format := "A3";
       ns_output_dir := None;
       ns_allow_chromium_download := false |}
    (["tmp"] ++ [("v1.2" ++ ".ipynb")%string]) =
  ["tmp"] ++ [("v1.2" ++ ".pdf")%string].
Proof.
  apply (ipynb_gives_pdf Sample.env
           {| ns_notebooks := ["/tmp/v1.2.ipynb"];
              ns_page_format := "A3";
              ns_output_dir := None;
              ns_allow_chromium_download := false |} ["tmp"] "v1.2").
  discriminate.
Defined.

(** X13.  With [--output-dir], notebooks of the same stem share one
    output path.  A run on two of them that returns has written that one
    path twice: the second PDF replaces the first. *)
Theorem same_stem_overwrites env defaults parser argv args a b d orc w :
  parser (match argv with
          | Some x => x
          | None => List.tl (sys_argv env)
          end) = Normal args ->
  ns_notebooks args = [a; b] ->
  ns_output_dir args = Some d ->
  stem (resolve env a) = stem (resolve env b) ->
  let (r, w') := main env defaults parser argv orc w in
  r = Normal 0%Z ->
  exists t,
    log w' = log w ++ t /\
    written_paths t =
      [joinpath (resolve env d) (stem (resolve env a) ++ ".pdf");
       joinpath (resolve env d) (stem (resolve env a) ++ ".pdf")].
Proof.
  intros Hargs Hnbs Hdir Hstem. unfold main, parse_args, lift.
  rewrite bind_unfold, Hargs, bind_unfold, Hnbs. cbn [List.map].
  pose proof (for_each_export_written env defaults args orc
                [resolve env a; resolve env b] w) as Hloop.
  destruct (for_each _ _ orc w) as [[[] | e] w1]; [| discriminate].
  destruct Hloop as (t & k & Hlog & _ & Hall & Hw).
  intros _. exists t. split; [exact Hlog |].
  rewrite Hw, (Hall eq_refl). cbn [List.length firstn List.map].
  unfold output_path, target_dir. rewrite Hdir, Hstem. reflexivity.
Qed.

Lemma same_stem_overwrites_witness :
  let (r, w') := main Sample.env_tmp Sample.defaults Sample.parser_out None
                   Sample.oracle_ok Sample.world0 in
  r = Normal 0%Z /\
  exists t,
    log w' = log Sample.world0 ++ t /\
    written_paths t = [["tmp"; "out"; "nb.pdf"]; ["tmp"; "out"; "nb.pdf"]].
Proof.
  pose proof (same_stem_overwrites Sample.env_tmp Sample.defaults
                Sample.parser_out None _ "/tmp/a/nb.ipynb" "/tmp/b/nb.ipynb"
                "/tmp/out" Sample.oracle_ok Sample.world0
                eq_refl eq_refl eq_refl eq_refl) as H.
  destruct (main Sample.env_tmp Sample.defaults Sample.parser_out None
              Sample.oracle_ok Sample.world0) as [r w'] eqn:Hrun.
  assert (Hr : r = Normal 0%Z).
  { change r with (fst (r, w')). rewrite <- Hrun. vm_compute. reflexivity. }
  split; [exact Hr |]. exact (H Hr).
Defined.

(** ** More on the command line *)

(** X14.  Whether a notebook exists is asked when its turn comes, not
    before the run starts.  When the first notebook has been exported and
    the second is not there, [main] raises [FileNotFoundError] for the
    second after one question to the file system, and the PDF of the
    first has been written and stays. *)
Theorem missing_notebook_found_at_its_turn env defaults parser argv args
    a b rest (orc : oracle) w w1 :
  parser (match argv with
          | Some x => x
          | None => List.tl (sys_argv env)
          end) = Normal args ->
  ns_notebooks args = a :: b :: rest ->
  export_one env defaults args (resolve env a) orc w = (Normal tt, w1) ->
  orc (log w1) (PathExists (resolve env b)) = Normal false ->
  main env defaults parser argv orc w =
    (Raised (FileNotFoundError
               ("Notebook not found: " ++ path_str (resolve env b))%string),
     record (PathExists (resolve env b), None) w1) /\
  exists t,
    log w1 = log w ++ t /\
    written_paths t = [output_path env args (resolve env a)].
Proof.
  intros Hargs Hnbs Hfirst Hmissing. split.
  - unfold main, parse_args, lift. rewrite bind_unfold, Hargs.
    rewrite bind_unfold, Hnbs. cbn [List.map for_each].
    rewrite bind_unfold, Hfirst.
    rewrite bind_unfold, export_one_missing by exact Hmissing. reflexivity.
  - pose proof (export_one_written env defaults args (resolve env a) orc w)
      as Hone.
    rewrite Hfirst in Hone. destruct Hone as (t & Hlog & [Hw | (e & He & _)]).
    + exists t. auto.
    + discriminate He.
Qed.

Lemma missing_notebook_found_at_its_turn_witness :
  let args := {| ns_notebooks := ["/tmp/nb.ipynb"; "/tmp/gone.ipynb"];
                 ns_page_format := "A4";
                 ns_output_dir := None;
                 ns_allow_chromium_download := false |} in
  let w1 := snd (export_one Sample.env_tmp Sample.defaults args
                   ["tmp"; "nb.ipynb"] Sample.oracle_one_notebook Sample.world0) in
  main Sample.env_tmp Sample.defaults Sample.parser_two None
    Sample.oracle_one_notebook Sample.world0 =
    (Raised (FileNotFoundError "Notebook not found: /tmp/gone.ipynb"),
     record (PathExists ["tmp"; "gone.ipynb"], None) w1) /\
  exists t,
    log w1 = log Sample.world0 ++ t /\
    written_paths t = [["tmp"; "nb.pdf"]].
Proof.
  cbv zeta.
  apply (missing_notebook_found_at_its_turn Sample.env_tmp Sample.defaults
           Sample.parser_two None
           {| ns_notebooks := ["/tmp/nb.ipynb"; "/tmp/gone.ipynb"];
              ns_page_format := "A4";
              ns_output_dir := None;
              ns_allow_chromium_download := false |}
           "/tmp/nb.ipynb" "/tmp/gone.ipynb" []
           Sample.oracle_one_notebook Sample.world0).
  - reflexivity.
  - reflexivity.
  - vm_compute. reflexivity.
  - vm_compute. reflexivity.
Defined.

(** X15.  Without [--allow-chromium-download] the command line never runs
    a sub-process: every [check_call] in a run of [main] is the install
    command of Playwright, and the parsed arguments allow the download. *)
Theorem install_only_when_allowed env defaults parser argv orc w :
  let (r, w') := main env defaults parser argv orc w in
  exists t,
    log w' = log w ++ t /\
    forall cmd s, In (CheckCall cmd, s) t ->
      cmd = [sys_executable env; "-m"; "playwright"; "install"; "chromium"] /\
      exists args,
        parser (match argv with
                | Some x => x
                | None => List.tl (sys_argv env)
                end) = Normal args /\
        ns_allow_chromium_download args = true.
Proof.
  pose proof (main_emits env orc defaults parser argv w) as (t & Hlog & Ht & _).
  destruct (main env defaults parser argv orc w) as [r w']; cbn [fst snd] in *.
  exists t. split; [exact Hlog |].
  intros cmd s Hin.
  destruct (main_event_convert _ _ _ _ _ _ _ _ Ht Hin)
    as (args & nb_path & Hargs & Hop); [left; reflexivity |].
  inversion Hop as [ | | o Hrender | ]; subst.
  inversion Hrender as [ | | | | Hallow | | | | | | | | | | ]; subst.
  split; [reflexivity |]. exists args. split; [exact Hargs |].
  exact Hallow.
Qed.
